(** * flask_datadog: a shallow embedding of [src/flask_datadog.py]

    The module glues a web framework's request hooks to a statsd client.
    Everything it does is: read and write a few attributes of the
    request-local object [g], read a configuration dictionary, read two
    clocks, and call methods of the wrapped client.  The embedding keeps
    exactly these effects:

    - Python values the code observes are the inductive [PyVal]; floats are
      Rocq's primitive binary64 floats, so [time.time() - start] and
      [1000 * elapsed] are the IEEE operations Python performs;
    - exceptions are the inductive [Exn]; a computation is a function from
      the [World] to a result and a new [World] (the monad [M]);
    - flask's contexts are [ctx]: none, an application context alone
      (where [g] works and [request] raises), or a request being served;
    - a call on the wrapped client binds its arguments to the parameters
      of the method, and is recorded in [calls], in order, when they fit;
    - the configuration dictionary is a [gmap string PyVal], with
      [dict.setdefault] written out. *)

From Stdlib Require Import ZArith Ascii PrimFloat FloatOps SpecFloat.
From stdpp Require Import gmap strings list pretty.

Local Open Scope Z_scope.

(** ** Python values *)

Module Py.

(** The values that reach this module: configuration entries, call
    arguments, clock readings.  A list is a list of tags (strings). *)
Inductive PyVal : Type :=
| PNone
| PBool (b : bool)
| PInt (z : Z)
| PFloat (x : float)
| PStr (s : string)
| PList (l : list string).

Global Instance PyVal_inhabited : Inhabited PyVal := populate PNone.

(** Exceptions the module can meet.  [NotModelled] marks a Python
    operation whose result this development does not compute (the text
    rendering of a float or of a list; [int] of text that is not ASCII or
    holds more digits than every interpreter accepts). *)
Inductive Exn : Type :=
| RuntimeError
| AttributeError (msg : string)
| KeyError (key : string)
| TypeError
| ValueError
| OverflowError
| NotModelled.

Inductive Result (A : Type) : Type :=
| Ok (a : A)
| Raise (e : Exn).
Global Arguments Ok {A} a.
Global Arguments Raise {A} e.

(** [bool(v)]: what [if v:] and [not v] test. *)
Definition truthy (v : PyVal) : bool :=
  match v with
  | PNone => false
  | PBool b => b
  | PInt z => negb (z =? 0)
  | PFloat x => negb (PrimFloat.eqb x 0)
  | PStr s => negb (String.eqb s "")
  | PList l => match l with [] => false | _ => true end
  end.

(** [v is None] *)
Definition is_None (v : PyVal) : bool :=
  match v with PNone => true | _ => false end.

(** ['{x}'.format(x=v)], which is [str(v)] for the values below. *)
Definition format (v : PyVal) : Result string :=
  match v with
  | PNone => Ok "None"%string
  | PBool true => Ok "True"%string
  | PBool false => Ok "False"%string
  | PInt z => Ok (pretty z)
  | PStr s => Ok s
  | PFloat _ | PList _ => Raise NotModelled
  end.

(** [str.lower] on ASCII text: the letters A..Z move to a..z, every other
    byte stays. *)
Definition lower_ascii (c : ascii) : ascii :=
  let n := N_of_ascii c in
  if ((65 <=? n) && (n <=? 90))%N then ascii_of_N (n + 32) else c.

Fixpoint lower (s : string) : string :=
  match s with
  | EmptyString => EmptyString
  | String c r => String (lower_ascii c) (lower r)
  end.

(** [round(x)] for a float: the nearest integer, ties to the even one.
    [round_half_even m e] rounds the magnitude [m * 2^e]; Python raises
    [OverflowError] on an infinity and [ValueError] on a NaN. *)
Definition round_half_even (m : positive) (e : Z) : Z :=
  match e with
  | Zneg p =>
      let d := Z.pow_pos 2 p in
      let q := Z.pos m / d in
      let r := Z.pos m mod d in
      match 2 * r ?= d with
      | Lt => q
      | Gt => q + 1
      | Eq => if Z.even q then q else q + 1
      end
  | _ => Z.pos m * 2 ^ e
  end.

Definition int_round (x : float) : Result Z :=
  match Prim2SF x with
  | S754_zero _ => Ok 0
  | S754_finite s m e =>
      let mag := round_half_even m e in
      Ok (if s then - mag else mag)
  | S754_infinity _ => Raise OverflowError
  | S754_nan => Raise ValueError
  end.

(** [int(round(1000 * v))] *)
Definition milliseconds (v : PyVal) : Result PyVal :=
  match v with
  | PBool b => Ok (PInt (1000 * (if b then 1 else 0)))
  | PInt z => Ok (PInt (1000 * z))
  | PFloat x =>
      match int_round (PrimFloat.mul 1000 x) with
      | Ok z => Ok (PInt z)
      | Raise e => Raise e
      end
  | PNone | PStr _ | PList _ => Raise TypeError
  end.

(** [int(s)] for a string: surrounding white space (tab, line feed,
    vertical tab, form feed, carriage return, space) is dropped, one sign
    is allowed, then decimal digits, where single underscores may sit
    between digits; anything else is a [ValueError].  This is what [int]
    does on ASCII text of at most 4300 digits.  Outside ASCII [int] also
    reads other digits and white space, and beyond 4300 digits recent
    interpreters refuse where older ones read on; on such text the result
    is [NotModelled]. *)
Definition is_space (c : ascii) : bool :=
  let n := N_of_ascii c in
  (((9 <=? n) && (n <=? 13)) || (n =? 32))%N.

Definition is_ascii (c : ascii) : bool := (N_of_ascii c <? 128)%N.

Definition max_str_digits : nat := 4300.

Definition digit_of (c : ascii) : option Z :=
  let n := N_of_ascii c in
  if ((48 <=? n) && (n <=? 57))%N then Some (Z.of_N n - 48) else None.

Fixpoint lstrip (s : list ascii) : list ascii :=
  match s with
  | c :: r => if is_space c then lstrip r else s
  | [] => []
  end.

Definition strip (s : list ascii) : list ascii :=
  reverse (lstrip (reverse (lstrip s))).

Fixpoint digits (acc : Z) (after_digit : bool) (s : list ascii) : option Z :=
  match s with
  | [] => if after_digit then Some acc else None
  | c :: r =>
      match digit_of c with
      | Some d => digits (10 * acc + d) true r
      | None =>
          if Ascii.eqb c "_" && after_digit then digits acc false r else None
      end
  end.

Definition count_digits (s : list ascii) : nat :=
  length (List.filter (λ c, bool_decide (is_Some (digit_of c))) s).

Definition int_of_string (s : string) : Result Z :=
  let text := String.list_ascii_of_string s in
  if negb (forallb is_ascii text) then Raise NotModelled
  else if (max_str_digits <? count_digits text)%nat then Raise NotModelled
  else
    let body := strip text in
    let signed :=
      match body with
      | c :: r =>
          if Ascii.eqb c "-" then option_map Z.opp (digits 0 false r)
          else if Ascii.eqb c "+" then digits 0 false r
          else digits 0 false body
      | [] => None
      end in
    match signed with
    | Some z => Ok z
    | None => Raise ValueError
    end.

End Py.
Import Py.


(** ** The world: request-local storage, clocks, the wrapped client's calls *)

(** The attributes of flask's [g] that this module touches.  A field is
    [None] while the attribute is not set. *)
Record GStore : Type := mkGStore {
  request_start_time : option float;
  request_elapsed_time : option PyVal;
  request_tags : option (list string)
}.

Definition empty_g : GStore := mkGStore None None None.

(** What the hooks read of flask's [request] and of the response. *)
Record Request : Type := mkRequest {
  endpoint : option string;
  method : string
}.

Record Response : Type := mkResponse {
  status_code : Z;
  headers : list (string * string)
}.

(** The contexts flask has pushed, if any.  [g] belongs to the application
    context and [request] to the request context, and a request context
    never comes without an application context.  So there are three
    situations: no context at all, where every access to [g] or [request]
    raises [RuntimeError]; an application context alone ([request] is
    [None]), where [g] works and [request] raises; and a request being
    served. *)
Record Context : Type := mkContext {
  g : GStore;
  request : option Request
}.

(** One call of a method of the wrapped client, as the client receives it. *)
Record Call : Type := mkCall {
  call_method : string;
  call_args : list PyVal;
  call_kwargs : gmap string PyVal
}.

Record World : Type := mkWorld {
  ctx : option Context;
  clock_monotonic : float;   (* what time.monotonic() returns now *)
  clock_time : float;        (* what time.time() returns now *)
  calls : list Call          (* calls received by the wrapped client, oldest first *)
}.

(** The world after [g] has become [s], and after the client has received
    one more call. *)
Definition with_g (w : World) (c : Context) (s : GStore) : World :=
  mkWorld (Some (mkContext s (request c)))
          (clock_monotonic w) (clock_time w) (calls w).

Definition with_call (w : World) (c : Call) : World :=
  mkWorld (ctx w) (clock_monotonic w) (clock_time w) (calls w ++ [c]).

(** ** Computations: state and exceptions *)

Definition M (A : Type) : Type := World → Result A * World.

Definition ret {A} (a : A) : M A := λ w, (Ok a, w).

Definition bind {A B} (m : M A) (k : A → M B) : M B :=
  λ w, match m w with
       | (Ok a, w') => k a w'
       | (Raise e, w') => (Raise e, w')
       end.

Definition raise {A} (e : Exn) : M A := λ w, (Raise e, w).

Definition lift {A} (r : Result A) : M A := λ w, (r, w).

(** [try: body  except RuntimeError: handler] *)
Definition except_RuntimeError {A} (body handler : M A) : M A :=
  λ w, match body w with
       | (Raise RuntimeError, w') => handler w'
       | r => r
       end.

Global Instance M_ret : MRet M := @ret.
Global Instance M_bind : MBind M := λ A B k m, bind m k.

(** Reading the clocks. *)
Definition time_monotonic : M float := λ w, (Ok (clock_monotonic w), w).
Definition time_time : M float := λ w, (Ok (clock_time w), w).

(** Access to [g] and [request] through flask's proxies. *)
Definition g_read : M GStore :=
  λ w, match ctx w with
       | Some c => (Ok (g c), w)
       | None => (Raise RuntimeError, w)
       end.

Definition g_write (f : GStore → GStore) : M unit :=
  λ w, match ctx w with
       | Some c => (Ok (), with_g w c (f (g c)))
       | None => (Raise RuntimeError, w)
       end.

Definition request_read : M Request :=
  λ w, match ctx w ≫= request with
       | Some r => (Ok r, w)
       | None => (Raise RuntimeError, w)
       end.

Definition set_request_start_time (t : float) (s : GStore) : GStore :=
  mkGStore (Some t) (request_elapsed_time s) (request_tags s).

Definition set_request_tags (l : list string) (s : GStore) : GStore :=
  mkGStore (request_start_time s) (request_elapsed_time s) (Some l).

(** [g.request_tags], [g.request_start_time] as attribute reads. *)
Definition g_request_tags : M (list string) :=
  s ← g_read;
  match request_tags s with
  | Some l => ret l
  | None => raise (AttributeError "request_tags")
  end.

Definition g_request_start_time : M float :=
  s ← g_read;
  match request_start_time s with
  | Some t => ret t
  | None => raise (AttributeError "request_start_time")
  end.

(** ** The wrapped statsd client

    [DogStatsd] is an external class.  An instance is known here by its
    attribute table: a name is bound to a plain value or to a member (a
    method or another object of the library, named).  The constructor
    stores its arguments under their own names next to the members of the
    class; a method binds its arguments as every Python function does and
    returns [None]. *)
Inductive Attr : Type :=
| AttrValue (v : PyVal)
| AttrMember (name : string).

Record DogStatsd : Type := mkDogStatsd {
  dog_attrs : gmap string Attr
}.

Definition member (name : string) : string * Attr := (name, AttrMember name).

(** The methods of the client that the source calls by name. *)
Definition DogStatsd_class : gmap string Attr :=
  list_to_map (member <$> ["increment"; "decrement"; "gauge"; "timing";
                           "histogram"; "__enter__"; "__exit__"]%string).

Definition DogStatsd_new
    (host port max_buffer_size namespace constant_tags use_ms socket_path : PyVal)
    : DogStatsd :=
  mkDogStatsd
    (<["host" := AttrValue host]>
     (<["port" := AttrValue port]>
      (<["max_buffer_size" := AttrValue max_buffer_size]>
       (<["namespace" := AttrValue namespace]>
        (<["constant_tags" := AttrValue constant_tags]>
         (<["use_ms" := AttrValue use_ms]>
          (<["socket_path" := AttrValue socket_path]> DogStatsd_class))))))).

(** The parameters of the client's methods after [self], each with
    whether it has a default value: [increment] and [decrement] are
    declared with [(metric, value=1, tags=None, sample_rate=...)]; [gauge],
    [timing] and [histogram] with [(metric, value, tags=None,
    sample_rate=...)]. *)
Definition counter_parameters : list (string * bool) :=
  [("metric", false); ("value", true); ("tags", true); ("sample_rate", true)]%string.

Definition value_parameters : list (string * bool) :=
  [("metric", false); ("value", false); ("tags", true); ("sample_rate", true)]%string.

Definition method_parameters (m : string) : option (list (string * bool)) :=
  if bool_decide (m ∈ ["increment"; "decrement"]%string) then Some counter_parameters
  else if bool_decide (m ∈ ["gauge"; "timing"; "histogram"]%string)
       then Some value_parameters
  else None.

(** Python's binding of the arguments of a call to parameters: positional
    arguments fill the parameters in order; there may not be more of them
    than parameters; a keyword must name a parameter, and one that no
    positional argument has filled; a parameter without a default must
    get a value. *)
Fixpoint binds_from (i : nat) (params : list (string * bool))
    (args : list PyVal) (kwargs : gmap string PyVal) : bool :=
  match params with
  | [] => true
  | (name, optional) :: rest =>
      match args !! i, kwargs !! name with
      | Some _, Some _ => false
      | None, None => optional
      | _, _ => true
      end && binds_from (S i) rest args kwargs
  end.

Definition binds (params : list (string * bool))
    (args : list PyVal) (kwargs : gmap string PyVal) : bool :=
  (length args <=? length params)%nat
  && bool_decide (dom kwargs ⊆ list_to_set (fst <$> params))
  && binds_from 0 params args kwargs.

(** Calling [client.name] with positional and keyword arguments: a plain
    value is not callable; a member is called with the arguments, which
    raises [TypeError] when they do not fit the method's parameters, and
    otherwise the call is recorded and returns [None]. *)
Definition lookup_method (client : option DogStatsd) (name : string) : M string :=
  match client with
  | None => raise (AttributeError ("'NoneType' object has no attribute '" +:+ name +:+ "'"))
  | Some d =>
      match dog_attrs d !! name with
      | Some (AttrMember m) => ret m
      | Some (AttrValue _) => raise TypeError
      | None => raise (AttributeError ("'DogStatsd' object has no attribute '" +:+ name +:+ "'"))
      end
  end.

Definition record_call (m : string) (args : list PyVal) (kwargs : gmap string PyVal)
    : M PyVal :=
  match method_parameters m with
  | Some params =>
      if binds params args kwargs
      then λ w, (Ok PNone, with_call w (mkCall m args kwargs))
      else raise TypeError
  | None => raise NotModelled
  end.

(** ** Response headers: keys compare without regard to case *)

Definition header_is (key : string) (h : string * string) : bool :=
  String.eqb (lower (fst h)) (lower key).

Definition headers_contains (hs : list (string * string)) (key : string) : bool :=
  existsb (header_is key) hs.

Definition headers_getitem (hs : list (string * string)) (key : string) : Result string :=
  match List.find (header_is key) hs with
  | Some h => Ok (snd h)
  | None => Raise (KeyError key)
  end.

(** ** The flask application, as far as [init_app] uses it *)

Record App : Type := mkApp {
  app_config : gmap string PyVal;
  extensions : gset string;
  before_request_funcs : list string;
  after_request_funcs : list string
}.

(** [d.setdefault(key, value)] *)
Definition setdefault (key : string) (value : PyVal) (d : gmap string PyVal)
    : gmap string PyVal :=
  match d !! key with
  | Some _ => d
  | None => <[key := value]> d
  end.

Global Instance Result_ret : MRet Result := @Ok.
Global Instance Result_bind : MBind Result :=
  λ A B k r, match r with Ok a => k a | Raise e => Raise e end.

(** [d[key]] on a dictionary that may still be [None]. *)
Definition getitem (d : option (gmap string PyVal)) (key : string) : Result PyVal :=
  match d with
  | None => Raise TypeError
  | Some c =>
      match c !! key with
      | Some v => Ok v
      | None => Raise (KeyError key)
      end
  end.

(** ** class _TimedContextManagerDecorator / class TimerWrapper *)

Module TimerWrapper.

Record t : Type := mk {
  statsd : option DogStatsd;
  metric : PyVal;
  tags : PyVal;
  sample_rate : PyVal;
  use_ms : PyVal;
  elapsed : PyVal;
  _start : option float
}.

(** The constructor of the external base class has the parameters
    [metric=None, tags=None, sample_rate=1, use_ms=None] after the
    client.  Binding follows Python's call rules: an argument given both
    by position and by keyword, a keyword that is no parameter, or too
    many positional arguments raise [TypeError]. *)
Definition parameters : gset string :=
  {["metric"; "tags"; "sample_rate"; "use_ms"]}%string.

Definition bind_parameter (args : list PyVal) (kwargs : gmap string PyVal)
    (i : nat) (name : string) (dflt : PyVal) : Result PyVal :=
  match args !! i, kwargs !! name with
  | Some _, Some _ => Raise TypeError
  | Some v, None => Ok v
  | None, Some v => Ok v
  | None, None => Ok dflt
  end.

Definition __init__ (client : option DogStatsd)
    (args : list PyVal) (kwargs : gmap string PyVal) : Result t :=
  if decide (4 < length args)%nat then Raise TypeError
  else if decide (dom kwargs ⊆ parameters) then
    m ← bind_parameter args kwargs 0 "metric" PNone;
    tg ← bind_parameter args kwargs 1 "tags" PNone;
    sr ← bind_parameter args kwargs 2 "sample_rate" (PInt 1);
    ms ← bind_parameter args kwargs 3 "use_ms" PNone;
    Ok (mk client m tg sr ms PNone None)
  else Raise TypeError.

(** [_send(self, start)], lines 19-29.  Logging has no effect that is
    observed here. *)
Definition _send (self : t) (start : float) : M t :=
  now ← time_monotonic;
  let elapsed0 := PFloat (PrimFloat.sub now start) in
  let ms := if is_None (use_ms self) then PBool true else use_ms self in
  elapsed1 ← (if truthy ms then lift (milliseconds elapsed0) else ret elapsed0);
  match statsd self with
  | Some d =>
      m ← lookup_method (Some d) "timing";
      record_call m [metric self; elapsed1; tags self; sample_rate self] ∅
  | None => ret PNone
  end;;
  ret (mk (statsd self) (metric self) (tags self) (sample_rate self)
          (use_ms self) elapsed1 (_start self)).

(** Modelled from the spec: [__enter__] and [__exit__] belong to the
    external base class.  Entering notes the time of entry; leaving
    reports the duration since then through [_send]. *)
Definition __enter__ (self : t) : M t :=
  now ← time_monotonic;
  ret (mk (statsd self) (metric self) (tags self) (sample_rate self)
          (use_ms self) (elapsed self) (Some now)).

Definition __exit__ (self : t) : M t :=
  match _start self with
  | Some s => _send self s
  | None => raise (AttributeError "_start")
  end.

Definition start (self : t) : M t := __enter__ self.
Definition stop (self : t) : M t := __exit__ self.

End TimerWrapper.

(** ** class StatsD *)

Module StatsD.

Record t : Type := mk {
  config : option (gmap string PyVal);
  statsd : option DogStatsd;
  is_enabled : bool;
  app : option App
}.

(** [get_request_tags], lines 247-256 *)
Definition get_request_tags (self : t) : M (list string) :=
  except_RuntimeError
    (s ← g_read; ret (default [] (request_tags s)))
    (ret []).

(** [add_request_tags], lines 258-276 *)
Definition add_request_tags (self : t) (tags : list string) : M (list string) :=
  current_tags ← get_request_tags self;
  stored ← except_RuntimeError
             (g_write (set_request_tags (current_tags ++ tags));; ret true)
             (ret false);
  if stored : bool then g_request_tags else ret [].

(** [__getattr__], lines 278-289: reached for a name that the instance
    and its class do not define themselves. *)
Definition __getattr__ (self : t) (name : string) : Result Attr :=
  match statsd self with
  | Some d =>
      match dog_attrs d !! name with
      | Some a => Ok a
      | None => Raise (AttributeError ("'StatsD' has has attribute '" +:+ name +:+ "'"))
      end
  | None => Raise (AttributeError ("'StatsD' has has attribute '" +:+ name +:+ "'"))
  end.

(** A member object is true in a condition. *)
Definition attr_truthy (a : Attr) : bool :=
  match a with
  | AttrValue v => truthy v
  | AttrMember _ => true
  end.

(** [setup_middleware], lines 167-180 *)
Definition setup_middleware (self : t) : Result t :=
  match config self with
  | None => Raise (AttributeError "'NoneType' object has no attribute 'setdefault'")
  | Some c =>
      let c := setdefault "DATADOG_CONFIGURE_MIDDLEWARE" (PBool true) c in
      let c := setdefault "DATADOG_RESPONSE_SIZE_METRIC_NAME" (PStr "flask.response.size") c in
      let c := setdefault "DATADOG_RESPONSE_METRIC_NAME" (PStr "flask.response.time") c in
      let c := setdefault "DATADOG_RESPONSE_SAMPLE_RATE" (PInt 1) c in
      let c := setdefault "DATADOG_RESPONSE_AUTO_TAG" (PBool true) c in
      let c := setdefault "DATADOG_RESPONSE_ENDPOINT_TAG_NAME" (PStr "endpoint") c in
      let c := setdefault "DATADOG_RESPONSE_METHOD_TAG_NAME" (PStr "method") c in
      wanted ← getitem (Some c) "DATADOG_CONFIGURE_MIDDLEWARE";
      if truthy wanted then
        match app self with
        | None => Raise (AttributeError "'NoneType' object has no attribute 'before_request'")
        | Some a =>
            Ok (mk (Some c) (statsd self) (is_enabled self)
                   (Some (mkApp (app_config a) (extensions a)
                            (before_request_funcs a ++ ["StatsD.before_request"%string])
                            (after_request_funcs a ++ ["StatsD.after_request"%string]))))
        end
      else Ok (mk (Some c) (statsd self) (is_enabled self) (app self))
  end.

(** [init_app], lines 69-133.  Dictionaries are values here, and the one
    sharing the code sets up itself is kept: when neither the call nor the
    constructor gave a dictionary, the object in use is [app.config]
    itself, and the defaults written to it are seen through the
    application as well.  A dictionary given by the caller stands for an
    object of its own.  A caller who hands in [app.config] itself makes
    that object the one in use (lines 104-107), which is the case of no
    dictionary on a client that holds none.  The constructor of the
    external client is taken to accept its arguments; the real one
    converts the port with [int] and raises where that fails. *)
Definition init_app (self : t) (app_ : App) (config_ : option (gmap string PyVal))
    : Result t :=
  let '(c, shared) :=
    match config_ with
    | Some c => (c, false)
    | None =>
        match config self with
        | Some c => (c, false)
        | None => (app_config app_, true)
        end
    end in
  let c := setdefault "STATSD_HOST" (PStr "localhost") c in
  let c := setdefault "STATSD_MAX_BUFFER_SIZE" (PInt 50) c in
  let c := setdefault "STATSD_NAMESPACE" PNone c in
  let c := setdefault "STATSD_PORT" (PInt 8125) c in
  let c := setdefault "STATSD_TAGS" PNone c in
  let c := setdefault "STATSD_USEMS" (PBool false) c in
  let c := setdefault "STATSD_SOCKET_PATH" PNone c in
  let a := mkApp (app_config app_) ({["statsd"%string]} ∪ extensions app_)
                 (before_request_funcs app_) (after_request_funcs app_) in
  host ← getitem (Some c) "STATSD_HOST";
  port ← getitem (Some c) "STATSD_PORT";
  max_buffer_size ← getitem (Some c) "STATSD_MAX_BUFFER_SIZE";
  namespace ← getitem (Some c) "STATSD_NAMESPACE";
  constant_tags ← getitem (Some c) "STATSD_TAGS";
  use_ms ← getitem (Some c) "STATSD_USEMS";
  socket_path ← getitem (Some c) "STATSD_SOCKET_PATH";
  let d := DogStatsd_new host port max_buffer_size namespace constant_tags
                         use_ms socket_path in
  self' ← setup_middleware (mk (Some c) (Some d) (is_enabled self) (Some a));
  let a' :=
    match app self', config self' with
    | Some a1, Some c1 =>
        Some (mkApp (if shared then c1 else app_config a1) (extensions a1)
                    (before_request_funcs a1) (after_request_funcs a1))
    | a1, _ => a1
    end in
  Ok (mk (config self') (statsd self') true a').

(** [__init__], lines 44-67 *)
Definition __init__ (app_ : option App) (config_ : option (gmap string PyVal))
    : Result t :=
  let self := mk config_ None false None in
  match app_ with
  | Some a => init_app self a None
  | None => Ok self
  end.

(** [_setdefault_tags], lines 135-140 *)
Definition _setdefault_tags (self : t) (kwargs : gmap string PyVal)
    : M (gmap string PyVal) :=
  let tags := default PNone (kwargs !! "tags") in
  if is_None tags then
    l ← get_request_tags self;
    ret (<["tags" := PList l]> kwargs)
  else ret kwargs.

(** [timer], lines 142-147 *)
Definition timer (self : t) (args : list PyVal) (kwargs : gmap string PyVal)
    : M TimerWrapper.t :=
  kwargs' ← (if is_enabled self then _setdefault_tags self kwargs else ret kwargs);
  lift (TimerWrapper.__init__ (statsd self) args kwargs').

(** [incr], [decr], [gauge], lines 149-165: with the client disabled the
    body falls through and the call returns [None]. *)
Definition incr (self : t) (args : list PyVal) (kwargs : gmap string PyVal)
    : M PyVal :=
  if is_enabled self then
    kwargs' ← _setdefault_tags self kwargs;
    increment ← lookup_method (statsd self) "increment";
    record_call increment args kwargs'
  else ret PNone.

Definition decr (self : t) (args : list PyVal) (kwargs : gmap string PyVal)
    : M PyVal :=
  if is_enabled self then
    kwargs' ← _setdefault_tags self kwargs;
    decrement ← lookup_method (statsd self) "decrement";
    record_call decrement args kwargs'
  else ret PNone.

Definition gauge (self : t) (args : list PyVal) (kwargs : gmap string PyVal)
    : M PyVal :=
  if is_enabled self then
    kwargs' ← _setdefault_tags self kwargs;
    gauge ← lookup_method (statsd self) "gauge";
    record_call gauge args kwargs'
  else ret PNone.

(** [before_request], lines 182-199 *)
Definition before_request (self : t) : M unit :=
  now ← time_monotonic;
  g_write (set_request_start_time now);;
  g_write (set_request_tags []);;
  auto_tag ← lift (getitem (config self) "DATADOG_RESPONSE_AUTO_TAG");
  if truthy auto_tag then
    endpoint_name ← lift (getitem (config self) "DATADOG_RESPONSE_ENDPOINT_TAG_NAME");
    r ← request_read;
    endpoint_name ← lift (format endpoint_name);
    let endpoint_tag :=
      endpoint_name +:+ ":" +:+ lower (default "None"%string (endpoint r)) in
    method_name ← lift (getitem (config self) "DATADOG_RESPONSE_METHOD_TAG_NAME");
    r ← request_read;
    method_name ← lift (format method_name);
    let method_tag := method_name +:+ ":" +:+ lower (method r) in
    add_request_tags self [endpoint_tag; method_tag];;
    ret ()
  else ret ().

(** [after_request], lines 201-245 *)
Definition after_request (self : t) (response : Response) : M Response :=
  s ← g_read;
  if negb (bool_decide (is_Some (request_start_time s))) then ret response
  else
    s ← g_read;
    let stored := default PNone (request_elapsed_time s) in
    elapsed0 ← (if negb (truthy stored) then
                  now ← time_time;
                  start ← g_request_start_time;
                  ret (PFloat (PrimFloat.sub now start))
                else ret stored);
    use_ms ← lift (__getattr__ self "use_ms");
    elapsed ← (if attr_truthy use_ms then lift (milliseconds elapsed0)
               else ret elapsed0);
    auto_tag ← lift (getitem (config self) "DATADOG_RESPONSE_AUTO_TAG");
    (if truthy auto_tag then
       add_request_tags self ["status_code:" +:+ pretty (status_code response)]
     else ret []);;
    tags ← get_request_tags self;
    sample_rate ← lift (getitem (config self) "DATADOG_RESPONSE_SAMPLE_RATE");
    timing ← lookup_method (statsd self) "timing";
    metric ← lift (getitem (config self) "DATADOG_RESPONSE_METRIC_NAME");
    record_call timing [metric; elapsed; PList tags; sample_rate] ∅;;
    (if headers_contains (headers response) "content-length" then
       text ← lift (headers_getitem (headers response) "content-length");
       size ← lift (int_of_string text);
       histogram ← lookup_method (statsd self) "histogram";
       size_metric ← lift (getitem (config self) "DATADOG_RESPONSE_SIZE_METRIC_NAME");
       record_call histogram [size_metric; PInt size; PList tags; sample_rate] ∅
     else ret PNone);;
    ret response.

End StatsD.

(** ** class API *)

Module API.

(** [__getattr__], lines 374-385: [dogapi] is the imported module
    [datadog.api], given by its attribute table; a module is true in a
    condition. *)
Definition __getattr__ (dogapi : gmap string Attr) (name : string) : Result Attr :=
  match dogapi !! name with
  | Some a => Ok a
  | None => Raise (AttributeError ("'API' has no attribute '" +:+ name +:+ "'"))
  end.

Record t : Type := mk {
  config : option (gmap string PyVal);
  app : option App
}.

(** [init_app], lines 331-372.  [initialize] is a function of the external
    library; the call it receives is returned next to the new state.
    Dictionaries are values, as in [StatsD.init_app]: with no dictionary
    given to the call or the constructor the object in use is
    [app.config] itself and the two keys written to it are seen through
    the application; a dictionary given by the caller stands for an object
    of its own, and handing in [app.config] itself is the case of no
    dictionary on a client that holds none. *)
Definition init_app (self : t) (app_ : App) (config_ : option (gmap string PyVal))
    : Result (t * Call) :=
  let '(c, shared) :=
    match config_ with
    | Some c => (c, false)
    | None =>
        match config self with
        | Some c => (c, false)
        | None => (app_config app_, true)
        end
    end in
  let c := setdefault "DATADOG_API_KEY" PNone c in
  let c := setdefault "DATADOG_APP_KEY" PNone c in
  let a := mkApp (if shared then c else app_config app_) (extensions app_)
                 (before_request_funcs app_) (after_request_funcs app_) in
  api_key ← getitem (Some c) "DATADOG_API_KEY";
  app_key ← getitem (Some c) "DATADOG_APP_KEY";
  Ok (mk (Some c) (Some a),
      mkCall "initialize" [] (<["api_key" := api_key]> (<["app_key" := app_key]> ∅))).

(** [__init__], lines 308-329: the new object and the calls of
    [initialize] made on the way. *)
Definition __init__ (app_ : option App) (config_ : option (gmap string PyVal))
    : Result (t * list Call) :=
  let self := mk config_ None in
  match app_ with
  | Some a =>
      match init_app self a None with
      | Ok (self', call) => Ok (self', [call])
      | Raise e => Raise e
      end
  | None => Ok (self, [])
  end.

End API.

(** ** Definitions used to state the properties *)

(** Lines 236-245 of [after_request] taken alone: the size metric and the
    return of the response, given the tag list and the sample rate that the
    timing metric was sent with. *)
Definition after_request_size (self : StatsD.t) (response : Response)
    (tags : list string) (sample_rate : PyVal) : M Response :=
  (if headers_contains (headers response) "content-length" then
     text ← lift (headers_getitem (headers response) "content-length");
     size ← lift (int_of_string text);
     histogram ← lookup_method (StatsD.statsd self) "histogram";
     size_metric ← lift (getitem (StatsD.config self)
                           "DATADOG_RESPONSE_SIZE_METRIC_NAME");
     record_call histogram [size_metric; PInt size; PList tags; sample_rate] ∅
   else ret PNone);;
  ret response.

(** What a view does to the tag list between the two hooks: some calls of
    [add_request_tags], in order. *)
Fixpoint add_all (self : StatsD.t) (adds : list (list string)) : M unit :=
  match adds with
  | [] => ret ()
  | l :: rest => StatsD.add_request_tags self l;; add_all self rest
  end.

(** The timing call the hooks and the timer send. *)
Definition timing_call (name value tags rate : PyVal) : Call :=
  mkCall "timing" [name; value; tags; rate] ∅.

Definition histogram_call (name value tags rate : PyVal) : Call :=
  mkCall "histogram" [name; value; tags; rate] ∅.

(** Decimal digits, and the number a row of digits stands for when read
    after [acc]. *)
Definition is_digit (c : ascii) : Prop := is_Some (digit_of c).

Definition digits_value (acc : Z) (l : list ascii) : Z :=
  fold_left (λ a c, 10 * a + default 0 (digit_of c)) l acc.

(** How often a tag occurs in a tag list. *)
Definition occurrences (tag : string) (l : list string) : nat :=
  count_occ String.string_dec l tag.

(** [part] occurs in [msg]. *)
Definition mentions (msg part : string) : Prop :=
  ∃ before after, msg = before +:+ part +:+ after.

(** The literals of lines 110-116 and 170-176, as one dictionary, and the
    client that line 123 builds from them. *)
Definition default_config : gmap string PyVal :=
  list_to_map
    [("STATSD_HOST", PStr "localhost");
     ("STATSD_MAX_BUFFER_SIZE", PInt 50);
     ("STATSD_NAMESPACE", PNone);
     ("STATSD_PORT", PInt 8125);
     ("STATSD_TAGS", PNone);
     ("STATSD_USEMS", PBool false);
     ("STATSD_SOCKET_PATH", PNone);
     ("DATADOG_CONFIGURE_MIDDLEWARE", PBool true);
     ("DATADOG_RESPONSE_SIZE_METRIC_NAME", PStr "flask.response.size");
     ("DATADOG_RESPONSE_METRIC_NAME", PStr "flask.response.time");
     ("DATADOG_RESPONSE_SAMPLE_RATE", PInt 1);
     ("DATADOG_RESPONSE_AUTO_TAG", PBool true);
     ("DATADOG_RESPONSE_ENDPOINT_TAG_NAME", PStr "endpoint");
     ("DATADOG_RESPONSE_METHOD_TAG_NAME", PStr "method")]%string.

Definition default_client : DogStatsd :=
  DogStatsd_new (PStr "localhost") (PInt 8125) (PInt 50) PNone PNone
                (PBool false) PNone.

(** Lines 103-107: the dictionary [init_app] works on, and whether it is
    [app.config] itself. *)
Definition chosen_config (self : StatsD.t) (app_ : App)
    (config_ : option (gmap string PyVal)) : gmap string PyVal :=
  match config_ with
  | Some c => c
  | None => default (app_config app_) (StatsD.config self)
  end.

Definition shares_app_config (self : StatsD.t)
    (config_ : option (gmap string PyVal)) : bool :=
  match config_, StatsD.config self with
  | None, None => true
  | _, _ => false
  end.

(** Lines 123-129: the client built from the entries of the dictionary. *)
Definition client_of (c : gmap string PyVal) : DogStatsd :=
  DogStatsd_new (c !!! "STATSD_HOST") (c !!! "STATSD_PORT")
                (c !!! "STATSD_MAX_BUFFER_SIZE") (c !!! "STATSD_NAMESPACE")
                (c !!! "STATSD_TAGS") (c !!! "STATSD_USEMS")
                (c !!! "STATSD_SOCKET_PATH").

(** An application after [init_app]: the extension is registered, and the
    two hooks are when the middleware is wanted. *)
Definition registered (a : App) (c : gmap string PyVal) (hooks : bool) : App :=
  mkApp c ({["statsd"%string]} ∪ extensions a)
        (before_request_funcs a
           ++ (if hooks then ["StatsD.before_request"%string] else []))
        (after_request_funcs a
           ++ (if hooks then ["StatsD.after_request"%string] else [])).

(** Concrete inputs for the worked examples. *)
Definition blank_app : App := mkApp ∅ ∅ [] [].

Definition default_statsd : StatsD.t :=
  StatsD.mk (Some default_config) (Some default_client) true
            (Some (registered blank_app ∅ true)).

Definition unconfigured_statsd : StatsD.t := StatsD.mk None None false None.

(** A client configured with the endpoint tag named like the method tag. *)
Definition same_name_config : gmap string PyVal :=
  <["DATADOG_RESPONSE_ENDPOINT_TAG_NAME" := PStr "method"]> default_config.

Definition same_name_statsd : StatsD.t :=
  StatsD.mk (Some same_name_config) (Some default_client) true
            (Some (registered blank_app ∅ true)).

(** A client configured with STATSD_USEMS set to True. *)
Definition millisecond_config : gmap string PyVal :=
  <["STATSD_USEMS" := PBool true]> default_config.

Definition millisecond_statsd : StatsD.t :=
  StatsD.mk (Some millisecond_config) (Some (client_of millisecond_config)) true
            (Some (registered blank_app ∅ true)).

Definition index_request : Request := mkRequest (Some "Index.View") "GET".

Definition world_of (s : GStore) (r : Request) (mono wall : float) : World :=
  mkWorld (Some (mkContext s (Some r))) mono wall [].

(** An application context without a request, as under
    [with app.app_context()]. *)
Definition application_context (s : GStore) (mono wall : float) : World :=
  mkWorld (Some (mkContext s None)) mono wall [].

Definition no_context (mono wall : float) : World :=
  mkWorld None mono wall [].

(** A client configured with DATADOG_RESPONSE_AUTO_TAG set to False. *)
Definition untagged_config : gmap string PyVal :=
  <["DATADOG_RESPONSE_AUTO_TAG" := PBool false]> default_config.

Definition untagged_statsd : StatsD.t :=
  StatsD.mk (Some untagged_config) (Some default_client) true
            (Some (registered blank_app ∅ true)).

(** A computation that leaves both clocks and the request alone, pushes or
    pops no context, and hands the wrapped client at most [n] further
    calls, behind those it already has; this is said of every run, also of
    one that raises. *)
Definition sends_at_most {A} (n : nat) (m : M A) : Prop :=
  ∀ w,
    clock_monotonic (snd (m w)) = clock_monotonic w
    ∧ clock_time (snd (m w)) = clock_time w
    ∧ request <$> ctx (snd (m w)) = request <$> ctx w
    ∧ ∃ rest, calls (snd (m w)) = calls w ++ rest ∧ (length rest ≤ n)%nat.

(** The literals of lines 358-359 as one dictionary, and the dictionary
    [API.init_app] works on (lines 351-355). *)
Definition api_defaults : gmap string PyVal :=
  list_to_map [("DATADOG_API_KEY", PNone); ("DATADOG_APP_KEY", PNone)]%string.

Definition api_chosen_config (self : API.t) (app_ : App)
    (config_ : option (gmap string PyVal)) : gmap string PyVal :=
  match config_ with
  | Some c => c
  | None => default (app_config app_) (API.config self)
  end.

(** * Properties *)

(** ** The model on concrete inputs *)

Example lower_GET : lower "GET" = "get"%string.
Proof. reflexivity. Qed.

Example int_of_string_512 : int_of_string "512" = Ok 512.
Proof. reflexivity. Qed.

Example int_of_string_padded : int_of_string " +1_000 " = Ok 1000.
Proof. reflexivity. Qed.

Example int_of_string_bad : int_of_string "5 12" = Raise ValueError.
Proof. reflexivity. Qed.

(** A tab is white space for [int]; the separator bytes 28 to 31 are not. *)
Example int_of_string_tab :
  int_of_string (String (ascii_of_nat 9) "512") = Ok 512.
Proof. reflexivity. Qed.

Example int_of_string_separator :
  int_of_string (String (ascii_of_nat 31) "512") = Raise ValueError
  ∧ int_of_string (String (ascii_of_nat 28) "5") = Raise ValueError.
Proof. split; reflexivity. Qed.

(** Text outside ASCII (here the two bytes of an ARABIC-INDIC DIGIT ONE)
    is left to the interpreter. *)
Example int_of_string_not_ascii :
  int_of_string (String (ascii_of_nat 217) (String (ascii_of_nat 161) ""))
  = Raise NotModelled.
Proof. reflexivity. Qed.

Example milliseconds_tie : milliseconds (PFloat 0.0625) = Ok (PInt 62).
Proof. reflexivity. Qed.

Example milliseconds_text : milliseconds (PStr "1") = Raise TypeError.
Proof. reflexivity. Qed.

Example format_int : format (PInt (-7)) = Ok "-7"%string.
Proof. reflexivity. Qed.

Example headers_any_case :
  headers_getitem [("Server", "x"); ("Content-Length", "512")]%string "content-length"
  = Ok "512"%string.
Proof. reflexivity. Qed.

(** ** Running a computation step by step *)

Section Run.
Context {A B : Type}.
Implicit Types (m : M A) (k : A → M B) (w : World).

Lemma bind_Ok m k w a w' : m w = (Ok a, w') → (m ≫= k) w = k a w'.
Proof. intros H. unfold mbind, M_bind, bind. by rewrite H. Qed.

Lemma bind_Raise m k w e w' :
  m w = (Raise e, w') → (m ≫= k) w = (Raise e, w').
Proof. intros H. unfold mbind, M_bind, bind. by rewrite H. Qed.

Lemma lift_bind (r : Result A) k w :
  (lift r ≫= k) w = match r with Ok a => k a w | Raise e => (Raise e, w) end.
Proof. unfold mbind, M_bind, bind, lift. by destruct r. Qed.

Lemma ret_bind (a : A) k w : (ret a ≫= k) w = k a w.
Proof. reflexivity. Qed.
End Run.

Lemma with_g_same w cx : ctx w = Some cx → with_g w cx (g cx) = w.
Proof. destruct w, cx; simpl; intros ->; reflexivity. Qed.

Lemma g_read_in w cx : ctx w = Some cx → g_read w = (Ok (g cx), w).
Proof. unfold g_read. by intros ->. Qed.

Lemma g_read_out w : ctx w = None → g_read w = (Raise RuntimeError, w).
Proof. unfold g_read. by intros ->. Qed.

Lemma g_write_in f w cx :
  ctx w = Some cx → g_write f w = (Ok (), with_g w cx (f (g cx))).
Proof. unfold g_write. by intros ->. Qed.

Lemma request_read_in w cx r :
  ctx w = Some cx → request cx = Some r → request_read w = (Ok r, w).
Proof. unfold request_read. intros -> Hr. cbn. by rewrite Hr. Qed.

Lemma lookup_method_member d name m w :
  dog_attrs d !! name = Some (AttrMember m) →
  lookup_method (Some d) name w = (Ok m, w).
Proof. unfold lookup_method. by intros ->. Qed.

Lemma record_call_cases m args kwargs w :
  record_call m args kwargs w = (Ok PNone, with_call w (mkCall m args kwargs))
  ∨ ∃ e, record_call m args kwargs w = (Raise e, w).
Proof.
  unfold record_call. destruct (method_parameters m) as [params|].
  - destruct (binds params args kwargs); [by left|right; by eexists].
  - right. by eexists.
Qed.

Lemma getitem_Some c key v : c !! key = Some v → getitem (Some c) key = Ok v.
Proof. unfold getitem. by intros ->. Qed.

(** ** The request tag list *)

Section Tags.
Variable self : StatsD.t.

Lemma get_request_tags_in w cx :
  ctx w = Some cx →
  StatsD.get_request_tags self w = (Ok (default [] (request_tags (g cx))), w).
Proof.
  intros H. unfold StatsD.get_request_tags, except_RuntimeError.
  by rewrite (bind_Ok _ _ _ _ _ (g_read_in _ _ H)).
Qed.

Lemma get_request_tags_out w :
  ctx w = None → StatsD.get_request_tags self w = (Ok [], w).
Proof.
  intros H. unfold StatsD.get_request_tags, except_RuntimeError.
  by rewrite (bind_Raise _ _ _ _ _ (g_read_out _ H)).
Qed.

Lemma add_request_tags_in tags w cx :
  ctx w = Some cx →
  let l := default [] (request_tags (g cx)) ++ tags in
  StatsD.add_request_tags self tags w
  = (Ok l, with_g w cx (set_request_tags l (g cx))).
Proof.
  intros H l. unfold StatsD.add_request_tags.
  rewrite (bind_Ok _ _ _ _ _ (get_request_tags_in _ _ H)).
  unfold except_RuntimeError, g_write, g_request_tags, g_read,
    mbind, M_bind, bind.
  rewrite H. reflexivity.
Qed.

Lemma add_request_tags_out tags w :
  ctx w = None → StatsD.add_request_tags self tags w = (Ok [], w).
Proof.
  intros H. unfold StatsD.add_request_tags.
  rewrite (bind_Ok _ _ _ _ _ (get_request_tags_out _ H)).
  unfold except_RuntimeError, g_write, mbind, M_bind, bind.
  rewrite H. reflexivity.
Qed.

(** A view's additions pile up behind the tags already there. *)
Lemma add_all_in adds : ∀ w cx,
  ctx w = Some cx →
  let l := default [] (request_tags (g cx)) ++ concat adds in
  ∃ s, add_all self adds w = (Ok (), with_g w cx s)
       ∧ default [] (request_tags s) = l
       ∧ request_start_time s = request_start_time (g cx)
       ∧ request_elapsed_time s = request_elapsed_time (g cx).
Proof.
  induction adds as [|a adds IH]; intros w cx H l; subst l.
  - exists (g cx). rewrite with_g_same by done.
    simpl. by rewrite app_nil_r.
  - cbn [add_all].
    rewrite (bind_Ok _ _ _ _ _ (add_request_tags_in a _ _ H)).
    destruct (IH (with_g w cx (set_request_tags
                    (default [] (request_tags (g cx)) ++ a) (g cx)))
                 (mkContext (set_request_tags
                    (default [] (request_tags (g cx)) ++ a) (g cx)) (request cx))
                 eq_refl) as (s & Hrun & Htags & Hstart & Hel).
    exists s. rewrite Hrun. unfold with_g in *. simpl in *.
    repeat split; try done.
    rewrite Htags. by rewrite <- app_assoc.
Qed.
End Tags.

(** ** The two hooks on a configured client *)

Section Hooks.
Variables (self : StatsD.t) (d : DogStatsd) (c : gmap string PyVal).
Hypothesis Hconfig : StatsD.config self = Some c.
Hypothesis Hstatsd : StatsD.statsd self = Some d.

(** [before_request] with auto-tagging: start time and the two tags. *)
Lemma before_request_run w cx r auto endpoint_name method_name en mn :
  c !! "DATADOG_RESPONSE_AUTO_TAG" = Some auto →
  truthy auto = true →
  c !! "DATADOG_RESPONSE_ENDPOINT_TAG_NAME" = Some endpoint_name →
  c !! "DATADOG_RESPONSE_METHOD_TAG_NAME" = Some method_name →
  format endpoint_name = Ok en →
  format method_name = Ok mn →
  ctx w = Some cx →
  request cx = Some r →
  StatsD.before_request self w
  = (Ok (),
     with_g w cx
       (mkGStore (Some (clock_monotonic w)) (request_elapsed_time (g cx))
          (Some [en +:+ ":" +:+ lower (default "None"%string (endpoint r));
                 mn +:+ ":" +:+ lower (method r)]))).
Proof.
  intros Ha Hauto He Hm Hfe Hfm Hx Hreq.
  unfold StatsD.before_request, time_monotonic.
  erewrite bind_Ok by reflexivity.
  rewrite (bind_Ok _ _ _ _ _ (g_write_in _ _ _ Hx)).
  erewrite bind_Ok by (by apply g_write_in).
  rewrite lift_bind, Hconfig, (getitem_Some _ _ _ Ha), Hauto.
  rewrite lift_bind, (getitem_Some _ _ _ He).
  erewrite bind_Ok by (by eapply request_read_in).
  rewrite lift_bind, Hfe.
  rewrite lift_bind, (getitem_Some _ _ _ Hm).
  erewrite bind_Ok by (by eapply request_read_in).
  rewrite lift_bind, Hfm.
  erewrite bind_Ok by (by apply add_request_tags_in).
  reflexivity.
Qed.

Hypothesis Htiming : dog_attrs d !! "timing" = Some (AttrMember "timing").

(** [after_request] up to and including the timing metric; what is left
    is [after_request_size]. *)
Lemma after_request_run response w cx t0 um auto rate name value :
  dog_attrs d !! "use_ms" = Some um →
  c !! "DATADOG_RESPONSE_AUTO_TAG" = Some auto →
  c !! "DATADOG_RESPONSE_SAMPLE_RATE" = Some rate →
  c !! "DATADOG_RESPONSE_METRIC_NAME" = Some name →
  ctx w = Some cx →
  request_start_time (g cx) = Some t0 →
  let stored := default PNone (request_elapsed_time (g cx)) in
  let raw := if truthy stored then stored
             else PFloat (PrimFloat.sub (clock_time w) t0) in
  (if StatsD.attr_truthy um then milliseconds raw else Ok raw) = Ok value →
  let current := default [] (request_tags (g cx)) in
  let tags := if truthy auto
              then current ++ ["status_code:" +:+ pretty (status_code response)]
              else current in
  let g' := if truthy auto then set_request_tags tags (g cx) else g cx in
  StatsD.after_request self response w =
  after_request_size self response tags rate
    (with_call (with_g w cx g') (timing_call name value (PList tags) rate)).
Proof.
  intros Hu Ha Hr Hn Hx Hs stored raw Hv current tags g'.
  unfold StatsD.after_request.
  rewrite (bind_Ok _ _ _ _ _ (g_read_in _ _ Hx)), Hs.
  rewrite bool_decide_true by eauto. cbn [negb].
  rewrite (bind_Ok _ _ _ _ _ (g_read_in _ _ Hx)). fold stored.
  assert (He : (if negb (truthy stored)
                then now ← time_time; start ← g_request_start_time;
                     ret (PFloat (PrimFloat.sub now start))
                else ret stored) w = (Ok raw, w)).
  { subst raw. destruct (truthy stored); [reflexivity|]. cbn [negb].
    unfold time_time, g_request_start_time, mbind, M_bind, bind, g_read.
    rewrite Hx. cbn. by rewrite Hs. }
  rewrite (bind_Ok _ _ _ _ _ He). clear He.
  rewrite lift_bind. unfold StatsD.__getattr__. rewrite Hstatsd, Hu.
  assert (He : (if StatsD.attr_truthy um then lift (milliseconds raw)
                else ret raw) w = (Ok value, w)).
  { destruct (StatsD.attr_truthy um); unfold lift, ret;
      by rewrite ?Hv; simplify_eq. }
  rewrite (bind_Ok _ _ _ _ _ He). clear He.
  rewrite lift_bind, Hconfig, (getitem_Some _ _ _ Ha).
  assert (He : (if truthy auto
                then StatsD.add_request_tags self
                       ["status_code:" +:+ pretty (status_code response)]
                else ret []) w
               = (Ok (if truthy auto then tags else []), with_g w cx g')).
  { subst tags g' current. destruct (truthy auto).
    - by rewrite (add_request_tags_in _ _ _ _ Hx).
    - by rewrite with_g_same. }
  rewrite (bind_Ok _ _ _ _ _ He). clear He.
  assert (He : StatsD.get_request_tags self (with_g w cx g')
               = (Ok tags, with_g w cx g')).
  { erewrite get_request_tags_in by reflexivity. cbn [g].
    subst tags g' current. by destruct (truthy auto). }
  rewrite (bind_Ok _ _ _ _ _ He). clear He.
  rewrite lift_bind, (getitem_Some _ _ _ Hr).
  rewrite (bind_Ok _ _ _ _ _ (lookup_method_member _ _ _ _ Htiming)).
  rewrite lift_bind, (getitem_Some _ _ _ Hn).
  unfold after_request_size. rewrite Hconfig, Hstatsd. reflexivity.
Qed.

(** Whatever the headers are, the size part only adds calls. *)
Lemma after_request_size_calls response tags rate w :
  ∃ rest, calls (snd (after_request_size self response tags rate w))
          = calls w ++ rest.
Proof.
  unfold after_request_size.
  destruct (headers_contains (headers response) "content-length").
  2: { exists []. simpl. by rewrite app_nil_r. }
  unfold mbind at 1, M_bind at 1, bind at 1.
  rewrite lift_bind.
  destruct (headers_getitem _ _) as [text|e];
    [|exists []; simpl; by rewrite app_nil_r].
  rewrite lift_bind.
  destruct (int_of_string text) as [n|e];
    [|exists []; simpl; by rewrite app_nil_r].
  rewrite Hstatsd, Hconfig.
  unfold lookup_method, getitem.
  destruct (dog_attrs d !! "histogram") as [[v|m]|];
    try (exists []; simpl; by rewrite app_nil_r).
  rewrite ret_bind, lift_bind.
  destruct (c !! "DATADOG_RESPONSE_SIZE_METRIC_NAME") as [size_name|];
    [|exists []; simpl; by rewrite app_nil_r].
  unfold mbind, M_bind, bind.
  destruct (record_call_cases m [size_name; PInt n; PList tags; rate] ∅ w)
    as [->|[e ->]].
  - eexists. reflexivity.
  - exists []. simpl. by rewrite app_nil_r.
Qed.

(** Whatever the headers are, the size part leaves [g], the request and
    the clocks alone. *)
Lemma after_request_size_frame response tags rate w :
  ∃ rest, snd (after_request_size self response tags rate w)
          = mkWorld (ctx w) (clock_monotonic w) (clock_time w) (calls w ++ rest).
Proof.
  assert (Hsame : ∃ rest, w = mkWorld (ctx w) (clock_monotonic w)
                                (clock_time w) (calls w ++ rest)).
  { exists []. rewrite app_nil_r. by destruct w. }
  unfold after_request_size.
  destruct (headers_contains (headers response) "content-length");
    [|exact Hsame].
  unfold mbind at 1, M_bind at 1, bind at 1.
  rewrite lift_bind.
  destruct (headers_getitem _ _) as [text|e]; [|exact Hsame].
  rewrite lift_bind.
  destruct (int_of_string text) as [n|e]; [|exact Hsame].
  rewrite Hstatsd, Hconfig.
  unfold lookup_method, getitem.
  destruct (dog_attrs d !! "histogram") as [[v|m]|]; try exact Hsame.
  rewrite ret_bind, lift_bind.
  destruct (c !! "DATADOG_RESPONSE_SIZE_METRIC_NAME") as [size_name|];
    [|exact Hsame].
  unfold mbind, M_bind, bind.
  destruct (record_call_cases m [size_name; PInt n; PList tags; rate] ∅ w)
    as [->|[e ->]]; [|exact Hsame].
  eexists. reflexivity.
Qed.

(** No content-length header: nothing more is sent. *)
Lemma after_request_size_absent response tags rate w :
  headers_contains (headers response) "content-length" = false →
  after_request_size self response tags rate w = (Ok response, w).
Proof. unfold after_request_size. by intros ->. Qed.

(** A content-length header that reads as the integer [n]: one histogram
    call with [n]. *)
Lemma after_request_size_present response tags rate w text n size_name :
  dog_attrs d !! "histogram" = Some (AttrMember "histogram") →
  c !! "DATADOG_RESPONSE_SIZE_METRIC_NAME" = Some size_name →
  headers_getitem (headers response) "content-length" = Ok text →
  int_of_string text = Ok n →
  after_request_size self response tags rate w
  = (Ok response,
     with_call w (histogram_call size_name (PInt n) (PList tags) rate)).
Proof.
  intros Hh Hn Ht Hi. unfold after_request_size.
  assert (headers_contains (headers response) "content-length" = true) as ->.
  { unfold headers_getitem in Ht. unfold headers_contains.
    destruct (List.find _ _) as [h|] eqn:Hf; [|done].
    apply existsb_exists. exists h.
    apply find_some in Hf. done. }
  unfold mbind at 1, M_bind at 1, bind at 1.
  rewrite lift_bind, Ht, lift_bind, Hi, Hstatsd.
  rewrite (bind_Ok _ _ _ _ _ (lookup_method_member _ _ _ _ Hh)).
  rewrite lift_bind, Hconfig, (getitem_Some _ _ _ Hn).
  reflexivity.
Qed.
End Hooks.

(** ** Configuration defaults *)

Lemma setdefault_union key value (c : gmap string PyVal) :
  setdefault key value c = c ∪ {[key := value]}.
Proof.
  unfold setdefault. destruct (c !! key) as [x|] eqn:E.
  - apply map_eq. intros i. destruct (c !! i) as [y|] eqn:Ei.
    + symmetry. by apply lookup_union_Some_l.
    + rewrite lookup_union_r by done.
      rewrite lookup_singleton_ne; congruence.
  - by apply insert_union_singleton_r.
Qed.

(** The fourteen [setdefault] calls amount to laying the given dictionary
    over [default_config]. *)
Lemma setdefault_all (c : gmap string PyVal) :
  setdefault "DATADOG_RESPONSE_METHOD_TAG_NAME" (PStr "method")
   (setdefault "DATADOG_RESPONSE_ENDPOINT_TAG_NAME" (PStr "endpoint")
    (setdefault "DATADOG_RESPONSE_AUTO_TAG" (PBool true)
     (setdefault "DATADOG_RESPONSE_SAMPLE_RATE" (PInt 1)
      (setdefault "DATADOG_RESPONSE_METRIC_NAME" (PStr "flask.response.time")
       (setdefault "DATADOG_RESPONSE_SIZE_METRIC_NAME" (PStr "flask.response.size")
        (setdefault "DATADOG_CONFIGURE_MIDDLEWARE" (PBool true)
         (setdefault "STATSD_SOCKET_PATH" PNone
          (setdefault "STATSD_USEMS" (PBool false)
           (setdefault "STATSD_TAGS" PNone
            (setdefault "STATSD_PORT" (PInt 8125)
             (setdefault "STATSD_NAMESPACE" PNone
              (setdefault "STATSD_MAX_BUFFER_SIZE" (PInt 50)
               (setdefault "STATSD_HOST" (PStr "localhost") c)))))))))))))
  = c ∪ default_config.
Proof.
  rewrite !setdefault_union, <- !(assoc_L (∪)).
  f_equal.
Qed.

Lemma getitem_total (c : gmap string PyVal) key :
  is_Some (c !! key) → getitem (Some c) key = Ok (c !!! key).
Proof.
  intros [v Hv]. unfold getitem. rewrite Hv.
  by rewrite (lookup_total_correct _ _ _ Hv).
Qed.

Lemma default_config_lookup (c : gmap string PyVal) key v :
  default_config !! key = Some v → is_Some ((c ∪ default_config) !! key).
Proof.
  intros H. destruct (c !! key) as [x|] eqn:E.
  - exists x. by apply lookup_union_Some_l.
  - exists v. by rewrite lookup_union_r.
Qed.

Lemma getitem_union (c0 D1 D2 : gmap string PyVal) key v :
  D1 !! key = Some v → D2 !! key = Some v →
  getitem (Some (c0 ∪ D1)) key = Ok ((c0 ∪ D2) !!! key).
Proof.
  intros H1 H2. unfold getitem.
  rewrite lookup_total_alt, !lookup_union, H1, H2.
  by destruct (c0 !! key).
Qed.

Lemma init_app_run self app_ config_ :
  let c := chosen_config self app_ config_ ∪ default_config in
  StatsD.init_app self app_ config_
  = Ok (StatsD.mk (Some c) (Some (client_of c)) true
          (Some (registered app_
                   (if shares_app_config self config_ then c else app_config app_)
                   (truthy (c !!! "DATADOG_CONFIGURE_MIDDLEWARE"))))).
Proof.
  intros c. unfold StatsD.init_app.
  assert (∃ c0 sh, (match config_ with
      | Some c => (c, false)
      | None =>
          match StatsD.config self with
          | Some c => (c, false)
          | None => (app_config app_, true)
          end
      end) = (c0, sh) ∧ c0 = chosen_config self app_ config_ ∧ sh = shares_app_config self config_) as (c0 & sh & -> & Hc0 & Hsh).
  { unfold chosen_config, shares_app_config.
    destruct config_; [by eauto|]. destruct (StatsD.config self); by eauto. }
  subst c0 sh.
  set (c0 := chosen_config self app_ config_) in *.
  set (c1 := setdefault "STATSD_SOCKET_PATH" _ _).
  assert (Hc1 : c1 = c0 ∪ ({["STATSD_HOST" := PStr "localhost"]}
                   ∪ {["STATSD_MAX_BUFFER_SIZE" := PInt 50]}
                   ∪ {["STATSD_NAMESPACE" := PNone]}
                   ∪ {["STATSD_PORT" := PInt 8125]}
                   ∪ {["STATSD_TAGS" := PNone]}
                   ∪ {["STATSD_USEMS" := PBool false]}
                   ∪ {["STATSD_SOCKET_PATH" := PNone]})).
  { subst c1. rewrite !setdefault_union. by rewrite <- !(assoc_L (∪)). }
  rewrite Hc1.
  do 7 (erewrite (getitem_union _ _ default_config) by reflexivity;
        cbn [mbind Result_bind]).
  fold c. fold (client_of c).
  unfold StatsD.setup_middleware. cbn [StatsD.config StatsD.statsd StatsD.app StatsD.is_enabled].
  rewrite <- Hc1. subst c1. rewrite setdefault_all. fold c.
  rewrite (getitem_total c "DATADOG_CONFIGURE_MIDDLEWARE")
    by (by eapply default_config_lookup).
  cbn [mbind Result_bind].
  unfold registered.
  destruct (truthy (c !!! "DATADOG_CONFIGURE_MIDDLEWARE"));
    cbn [mbind Result_bind StatsD.config StatsD.statsd StatsD.app StatsD.is_enabled
         app_config extensions before_request_funcs after_request_funcs];
    rewrite ?app_nil_r; reflexivity.
Qed.

(** Every client that [init_app] has configured meets what the lemmas on
    the hooks assume of it. *)
Lemma init_app_configured self app_ config_ :
  ∃ self' d c,
    StatsD.init_app self app_ config_ = Ok self'
    ∧ StatsD.config self' = Some c
    ∧ StatsD.statsd self' = Some d
    ∧ StatsD.is_enabled self' = true
    ∧ dog_attrs d !! "timing" = Some (AttrMember "timing")
    ∧ dog_attrs d !! "histogram" = Some (AttrMember "histogram")
    ∧ dog_attrs d !! "use_ms" = Some (AttrValue (c !!! "STATSD_USEMS"))
    ∧ (∀ key, is_Some (default_config !! key) → is_Some (c !! key)).
Proof.
  eexists _, _, _. split; [apply init_app_run|].
  cbn [StatsD.config StatsD.statsd StatsD.is_enabled].
  repeat split.
  intros key [v Hv]. by eapply default_config_lookup.
Qed.

(** ** C5: defaults of an empty configuration *)

(** C5 as worded does not hold: configured with an empty dictionary, the
    response metric names default to "flask.response.time" and
    "flask.response.size", not to "app.response.time" and
    "app.response.size". *)
Lemma init_app_metric_names_counterexample :
  match StatsD.init_app unconfigured_statsd blank_app (Some ∅) with
  | Ok self =>
      getitem (StatsD.config self) "DATADOG_RESPONSE_METRIC_NAME"
        = Ok (PStr "flask.response.time")
      ∧ getitem (StatsD.config self) "DATADOG_RESPONSE_METRIC_NAME"
        ≠ Ok (PStr "app.response.time")
      ∧ getitem (StatsD.config self) "DATADOG_RESPONSE_SIZE_METRIC_NAME"
        = Ok (PStr "flask.response.size")
      ∧ getitem (StatsD.config self) "DATADOG_RESPONSE_SIZE_METRIC_NAME"
        ≠ Ok (PStr "app.response.size")
  | Raise _ => False
  end.
Proof. rewrite init_app_run. vm_compute. repeat split; discriminate. Qed.

(** C5 (amended): configuring with an empty dictionary, through [init_app]
    or through the constructor, yields exactly [default_config] (host
    "localhost", port 8125, namespace None, buffer size 50, tags None,
    use-ms False, socket path None, middleware True, metric names
    "flask.response.time" and "flask.response.size", sample rate 1,
    auto-tag True, tag names "endpoint" and "method"), a client built from
    these values, and the two hooks registered. *)
Theorem init_app_empty_config (self : StatsD.t) (app_ : App) :
  let configured :=
    StatsD.mk (Some default_config) (Some default_client) true
              (Some (registered app_ (app_config app_) true)) in
  StatsD.init_app self app_ (Some ∅) = Ok configured
  ∧ StatsD.__init__ (Some app_) (Some ∅) = Ok configured.
Proof.
  split.
  - rewrite init_app_run. reflexivity.
  - unfold StatsD.__init__. rewrite init_app_run. reflexivity.
Qed.

(** ** C3: tags outside a context *)

(** Under an application context alone, [before_request] stores the start
    time and an empty tag list and then raises on [request]. *)
Example before_request_application_context :
  StatsD.before_request default_statsd (application_context empty_g 1 2)
  = (Raise RuntimeError,
     application_context (mkGStore (Some 1%float) None (Some [])) 1 2).
Proof. reflexivity. Qed.


(** C3 as worded does not hold in every situation without a request
    context: under an application context alone [request] raises, yet [g]
    works, and [add_request_tags] stores the tags and returns them, as
    [get_request_tags] does afterwards. *)
Lemma tags_outside_context_counterexample :
  let w := application_context empty_g 1 2 in
  let w' := application_context (mkGStore None None (Some ["a:b"%string])) 1 2 in
  request_read w = (Raise RuntimeError, w)
  ∧ StatsD.add_request_tags default_statsd ["a:b"%string] w
    = (Ok ["a:b"%string], w')
  ∧ StatsD.get_request_tags default_statsd w' = (Ok ["a:b"%string], w')
  ∧ w' ≠ w.
Proof. cbv zeta. repeat split; try (vm_compute; reflexivity). discriminate. Qed.

(** C3 (amended): with no context active at all, neither an application
    context nor a request context, [get_request_tags] returns the empty
    list, and [add_request_tags] returns the empty list; neither raises
    and the world is left as it was. *)
Theorem tags_outside_context (self : StatsD.t) (tags : list string) (w : World) :
  ctx w = None →
  StatsD.get_request_tags self w = (Ok [], w)
  ∧ StatsD.add_request_tags self tags w = (Ok [], w).
Proof.
  intros H. split.
  - by apply get_request_tags_out.
  - by apply add_request_tags_out.
Qed.

Lemma tags_outside_context_witness :
  StatsD.get_request_tags default_statsd (no_context 1 2) = (Ok [], no_context 1 2)
  ∧ StatsD.add_request_tags default_statsd ["a:b"%string] (no_context 1 2)
    = (Ok [], no_context 1 2).
Proof. apply tags_outside_context. reflexivity. Defined.

(** ** C4: no start time *)

(** C4: when [g] holds no start time, [after_request] returns the response
    it was given and leaves the world as it was: no call reaches the
    client. *)
Theorem after_request_without_start_time
    (self : StatsD.t) (response : Response) (w : World) (cx : Context) :
  ctx w = Some cx →
  request_start_time (g cx) = None →
  StatsD.after_request self response w = (Ok response, w).
Proof.
  intros Hx Hs. unfold StatsD.after_request.
  rewrite (bind_Ok _ _ _ _ _ (g_read_in _ _ Hx)), Hs.
  rewrite bool_decide_false by (by intros [? ?]).
  reflexivity.
Qed.

Lemma after_request_without_start_time_witness :
  let response := mkResponse 200 [("Content-Length", "512")]%string in
  let w := world_of (mkGStore None (Some (PFloat 3)) (Some ["a:b"%string]))
                    index_request 1 2 in
  StatsD.after_request default_statsd response w = (Ok response, w).
Proof.
  intros response w.
  apply (after_request_without_start_time default_statsd response w
           (mkContext (mkGStore None (Some (PFloat 3)) (Some ["a:b"%string]))
                      (Some index_request)));
    reflexivity.
Defined.

(** ** C6: appending tags *)

(** C6: inside a context, [add_request_tags] stores and returns the current
    list followed by the given tags, duplicates included; after two calls
    with ["a:b"] the list ends in two more "a:b". *)
Theorem add_request_tags_appends
    (self : StatsD.t) (tags : list string) (w : World) (cx : Context) :
  ctx w = Some cx →
  let current := default [] (request_tags (g cx)) in
  StatsD.add_request_tags self tags w
  = (Ok (current ++ tags), with_g w cx (set_request_tags (current ++ tags) (g cx)))
  ∧ let twice := (StatsD.add_request_tags self ["a:b"%string];;
                  StatsD.add_request_tags self ["a:b"%string]) w in
    fst twice = Ok (current ++ ["a:b"; "a:b"]%string)
    ∧ StatsD.get_request_tags self (snd twice)
      = (Ok (current ++ ["a:b"; "a:b"]%string), snd twice)
    ∧ occurrences "a:b" (current ++ ["a:b"; "a:b"]%string)
      = (occurrences "a:b" current + 2)%nat.
Proof.
  intros Hx current. split; [by apply add_request_tags_in|].
  cbv zeta.
  rewrite (bind_Ok _ _ _ _ _ (add_request_tags_in self _ _ _ Hx)).
  erewrite add_request_tags_in by reflexivity.
  cbn [fst snd g set_request_tags request_tags default from_option id].
  fold current. rewrite <- app_assoc. cbn [app].
  split; [done|]. split.
  - erewrite get_request_tags_in by reflexivity. reflexivity.
  - unfold occurrences. rewrite count_occ_app. reflexivity.
Qed.

Lemma add_request_tags_appends_witness :
  let w := world_of (mkGStore (Some 1%float) None (Some ["a:b"; "x:y"]%string))
                    index_request 1 2 in
  fst ((StatsD.add_request_tags default_statsd ["a:b"%string];;
        StatsD.add_request_tags default_statsd ["a:b"%string]) w)
  = Ok ["a:b"; "x:y"; "a:b"; "a:b"]%string.
Proof.
  intros w.
  apply (add_request_tags_appends default_statsd [] w
           (mkContext (mkGStore (Some 1%float) None (Some ["a:b"; "x:y"]%string))
                      (Some index_request)) eq_refl).
Defined.

(** ** C8: attribute passthrough *)

(** C8: for a name the adapter does not define itself, [__getattr__]
    returns the wrapped client's attribute of that name when there is one;
    otherwise it raises an [AttributeError] whose message contains the
    adapter's name and the requested name.  This holds for [StatsD] and for
    [API]. *)
Theorem getattr_passthrough (name : string) :
  (∀ self d a,
     StatsD.statsd self = Some d → dog_attrs d !! name = Some a →
     StatsD.__getattr__ self name = Ok a)
  ∧ (∀ self,
       (∀ d, StatsD.statsd self = Some d → dog_attrs d !! name = None) →
       ∃ msg, StatsD.__getattr__ self name = Raise (AttributeError msg)
              ∧ mentions msg "StatsD" ∧ mentions msg name)
  ∧ (∀ dogapi a,
       dogapi !! name = Some a → API.__getattr__ dogapi name = Ok a)
  ∧ (∀ dogapi,
       dogapi !! name = None →
       ∃ msg, API.__getattr__ dogapi name = Raise (AttributeError msg)
              ∧ mentions msg "API" ∧ mentions msg name).
Proof.
  repeat split.
  - intros self d a Hd Ha. unfold StatsD.__getattr__. by rewrite Hd, Ha.
  - intros self H.
    exists ("'StatsD' has has attribute '" +:+ name +:+ "'")%string.
    split; [|split].
    + unfold StatsD.__getattr__.
      destruct (StatsD.statsd self) as [d|]; [|done].
      by rewrite (H d eq_refl).
    + by exists "'"%string, ("' has has attribute '" +:+ name +:+ "'")%string.
    + by exists "'StatsD' has has attribute '"%string, "'"%string.
  - intros dogapi a Ha. unfold API.__getattr__. by rewrite Ha.
  - intros dogapi Ha.
    exists ("'API' has no attribute '" +:+ name +:+ "'")%string.
    split; [|split].
    + unfold API.__getattr__. by rewrite Ha.
    + by exists "'"%string, ("' has no attribute '" +:+ name +:+ "'")%string.
    + by exists "'API' has no attribute '"%string, "'"%string.
Qed.

Lemma getattr_passthrough_witness :
  StatsD.__getattr__ default_statsd "use_ms" = Ok (AttrValue (PBool false))
  ∧ (∃ msg, StatsD.__getattr__ unconfigured_statsd "use_ms"
            = Raise (AttributeError msg)
            ∧ mentions msg "StatsD" ∧ mentions msg "use_ms")
  ∧ API.__getattr__ {["Metric" := AttrMember "datadog.api.Metric"]} "Metric"
    = Ok (AttrMember "datadog.api.Metric")
  ∧ (∃ msg, API.__getattr__ {["Metric" := AttrMember "datadog.api.Metric"]} "Event"
            = Raise (AttributeError msg)
            ∧ mentions msg "API" ∧ mentions msg "Event").
Proof.
  split; [|split; [|split]].
  - apply (proj1 (getattr_passthrough "use_ms") default_statsd default_client);
      reflexivity.
  - apply (proj1 (proj2 (getattr_passthrough "use_ms")) unconfigured_statsd).
    intros d H. discriminate H.
  - apply (proj1 (proj2 (proj2 (getattr_passthrough "Metric")))). reflexivity.
  - apply (proj2 (proj2 (proj2 (getattr_passthrough "Event")))). reflexivity.
Defined.

(** ** C10: counters and gauges before [init_app] *)

(** C10: while [is_enabled] is false, [incr], [decr] and [gauge] return
    [None] whatever their arguments are, raise nothing, and leave the world
    as it was: no call reaches a client. *)
Theorem forward_disabled
    (self : StatsD.t) (args : list PyVal) (kwargs : gmap string PyVal) (w : World) :
  StatsD.is_enabled self = false →
  StatsD.incr self args kwargs w = (Ok PNone, w)
  ∧ StatsD.decr self args kwargs w = (Ok PNone, w)
  ∧ StatsD.gauge self args kwargs w = (Ok PNone, w).
Proof.
  intros H. unfold StatsD.incr, StatsD.decr, StatsD.gauge.
  by rewrite H.
Qed.

Lemma forward_disabled_witness :
  let w := world_of empty_g index_request 1 2 in
  let args := [PStr "page.views"; PInt 3] in
  let kwargs : gmap string PyVal := {["tags" := PList ["a:b"%string]]} in
  StatsD.incr unconfigured_statsd args kwargs w = (Ok PNone, w)
  ∧ StatsD.decr unconfigured_statsd args kwargs w = (Ok PNone, w)
  ∧ StatsD.gauge unconfigured_statsd args kwargs w = (Ok PNone, w).
Proof. intros w args kwargs. apply forward_disabled. reflexivity. Defined.

Example init_without_app :
  StatsD.__init__ None None = Ok unconfigured_statsd
  ∧ StatsD.is_enabled unconfigured_statsd = false.
Proof. split; reflexivity. Qed.

(** ** C1: the elapsed time sent by [after_request] *)

(** C1 as worded does not hold: an elapsed value that is present in [g] but
    is zero is passed over.  Start time 10, [time.time()] at 15, stored
    elapsed 0.0: the timing metric carries 5.0, not the stored 0.0. *)
Lemma after_request_elapsed_counterexample :
  let s := mkGStore (Some 10%float) (Some (PFloat 0)) (Some []) in
  let w := world_of s index_request 12 15 in
  request_elapsed_time s = Some (PFloat 0)
  ∧ calls (snd (StatsD.after_request default_statsd (mkResponse 200 []) w))
    = [timing_call (PStr "flask.response.time") (PFloat 5)
                   (PList ["status_code:200"%string]) (PInt 1)]
  ∧ PFloat 5 ≠ PFloat 0.
Proof.
  cbv zeta. split; [reflexivity|]. split; [vm_compute; reflexivity|].
  intros H.
  apply (f_equal (λ v, match v with PFloat x => PrimFloat.eqb x 0 | _ => true end)) in H.
  vm_compute in H. discriminate H.
Qed.

(** C1 (amended): with a start time recorded, [after_request] takes the
    elapsed value found in [g] whenever that value is true in a condition
    (present, not None, not zero); otherwise it takes [time.time()] minus
    the recorded start time.  The value sent with the timing metric is that
    value converted by [int(round(1000 * _))] exactly when the wrapped
    client's [use_ms] is true, and the value itself otherwise. *)
Theorem after_request_elapsed
    (self : StatsD.t) (d : DogStatsd) (c : gmap string PyVal)
    (response : Response) (w : World) (cx : Context) (t0 : float)
    (um : Attr) (auto rate name value : PyVal) :
  StatsD.config self = Some c →
  StatsD.statsd self = Some d →
  dog_attrs d !! "timing" = Some (AttrMember "timing") →
  dog_attrs d !! "use_ms" = Some um →
  c !! "DATADOG_RESPONSE_AUTO_TAG" = Some auto →
  c !! "DATADOG_RESPONSE_SAMPLE_RATE" = Some rate →
  c !! "DATADOG_RESPONSE_METRIC_NAME" = Some name →
  ctx w = Some cx →
  request_start_time (g cx) = Some t0 →
  let stored := default PNone (request_elapsed_time (g cx)) in
  let raw := if truthy stored then stored
             else PFloat (PrimFloat.sub (clock_time w) t0) in
  (if StatsD.attr_truthy um then milliseconds raw else Ok raw) = Ok value →
  ∃ tags rest,
    calls (snd (StatsD.after_request self response w))
    = calls w ++ timing_call name value (PList tags) rate :: rest.
Proof.
  intros Hc Hd Ht Hu Ha Hr Hn Hx Hs stored raw Hv.
  rewrite (after_request_run self d c Hc Hd Ht response w cx t0 um auto rate
             name value Hu Ha Hr Hn Hx Hs Hv).
  eexists.
  edestruct (after_request_size_calls self d c Hc Hd) as [rest Hrest].
  exists rest. rewrite Hrest. cbn [calls with_call with_g].
  by rewrite <- app_assoc.
Qed.

Example millisecond_statsd_init :
  StatsD.__init__ (Some blank_app) (Some {["STATSD_USEMS" := PBool true]})
  = Ok millisecond_statsd.
Proof. unfold StatsD.__init__. rewrite init_app_run. reflexivity. Qed.

Lemma after_request_elapsed_witness :
  let s := mkGStore (Some 10%float) (Some (PFloat 0.25)) (Some []) in
  let w := world_of s index_request 12 15 in
  ∃ tags rest,
    calls (snd (StatsD.after_request millisecond_statsd (mkResponse 200 []) w))
    = calls w ++ timing_call (PStr "flask.response.time") (PInt 250)
                             (PList tags) (PInt 1) :: rest.
Proof.
  intros s w.
  apply (after_request_elapsed millisecond_statsd (client_of millisecond_config)
           millisecond_config (mkResponse 200 []) w (mkContext s (Some index_request))
           10%float (AttrValue (PBool true)) (PBool true) (PInt 1)
           (PStr "flask.response.time") (PInt 250));
    reflexivity.
Defined.

(** ** Reading back a printed byte count *)

Section Decimal.

Lemma pretty_N_char_digit (x : N) :
  (x < 10)%N → digit_of (pretty_N_char x) = Some (Z.of_N x).
Proof.
  intros H.
  destruct x as [|p]; [reflexivity|].
  do 4 (destruct p as [p|p|]; try reflexivity; try lia).
Qed.

Lemma digit_not_space c : is_digit c → is_space c = false.
Proof.
  unfold is_digit, digit_of, is_space. set (n := N_of_ascii c). intros [d H].
  destruct ((48 <=? n)%N && (n <=? 57)%N) eqn:E; [|discriminate].
  apply andb_prop in E as [Hlo Hhi].
  apply N.leb_le in Hlo. apply N.leb_le in Hhi.
  apply orb_false_intro.
  - apply andb_false_intro2. apply N.leb_gt. lia.
  - apply N.eqb_neq. lia.
Qed.

Lemma digit_is_ascii c : is_digit c → is_ascii c = true.
Proof.
  unfold is_digit, digit_of, is_ascii. set (n := N_of_ascii c). intros [d H].
  destruct ((48 <=? n)%N && (n <=? 57)%N) eqn:E; [|discriminate].
  apply andb_prop in E as [Hlo Hhi].
  apply N.leb_le in Hhi. apply N.ltb_lt. lia.
Qed.

Lemma digits_are_ascii (l : list ascii) :
  Forall is_digit l → forallb is_ascii l = true.
Proof.
  intros H. apply forallb_forall. intros c Hc.
  apply digit_is_ascii. rewrite Forall_forall in H. apply H.
  by apply list_elem_of_In.
Qed.

Lemma count_digits_all (l : list ascii) :
  Forall is_digit l → count_digits l = length l.
Proof.
  unfold count_digits. induction 1 as [|c l Hc Hl IH]; [done|].
  cbn [List.filter]. rewrite bool_decide_true by done.
  cbn [length]. by rewrite IH.
Qed.

Lemma digits_all (l : list ascii) : ∀ acc b,
  Forall is_digit l → (l ≠ [] ∨ b = true) →
  digits acc b l = Some (digits_value acc l).
Proof.
  induction l as [|c l IH]; intros acc b Hall Hne.
  - destruct Hne as [Hne|Hne]; [done|by subst].
  - inversion Hall as [|c' l' Hc Hl]; subst. destruct Hc as [d Hd].
    cbn [digits digits_value fold_left]. rewrite Hd. cbn [default from_option id].
    apply IH; auto.
Qed.

Lemma pretty_N_go_digits (x : N) : ∀ s,
  ∃ l, String.list_ascii_of_string (pretty_N_go x s)
       = l ++ String.list_ascii_of_string s
       ∧ Forall is_digit l
       ∧ ((0 < x)%N → l ≠ [])
       ∧ (∀ acc, digits_value acc l = acc * 10 ^ Z.of_nat (length l) + Z.of_N x)
       ∧ (x = 0%N → l = [])
       ∧ ((0 < x)%N → 10 ^ (Z.of_nat (length l) - 1) ≤ Z.of_N x).
Proof.
  induction x as [x IH] using (well_founded_induction N.lt_wf_0). intros s.
  destruct (decide (x = 0%N)) as [->|Hx].
  - exists []. rewrite pretty_N_go_0.
    split; [done|]. split; [constructor|]. split; [lia|].
    split; [intros acc; cbn; lia|]. split; [done|lia].
  - rewrite pretty_N_go_step by lia.
    destruct (IH (x `div` 10)%N) with (s := String (pretty_N_char (x `mod` 10)) s)
      as (l & Hl & Hd & Hfull & Hv & Hzero & Hlow).
    { apply N.div_lt; lia. }
    exists (l ++ [pretty_N_char (x `mod` 10)]).
    assert (Hc : digit_of (pretty_N_char (x `mod` 10)) = Some (Z.of_N (x `mod` 10)%N)).
    { apply pretty_N_char_digit. apply N.mod_lt. lia. }
    assert (Hdm : Z.of_N x = 10 * Z.of_N (x `div` 10)%N + Z.of_N (x `mod` 10)%N).
    { rewrite N2Z.inj_div, N2Z.inj_mod. change (Z.of_N 10) with 10.
      apply Z.div_mod. lia. }
    split; [|split; [|split; [|split; [|split]]]].
    + rewrite Hl. cbn [String.list_ascii_of_string]. by rewrite <- app_assoc.
    + apply Forall_app. split; [done|]. constructor; [by eexists|constructor].
    + intros _. by destruct l.
    + intros acc. unfold digits_value in *. rewrite fold_left_app. cbn [fold_left].
      rewrite Hv, Hc. cbn [default from_option id].
      rewrite length_app. cbn [length].
      rewrite Nat2Z.inj_add, Z.pow_add_r by lia.
      change (10 ^ Z.of_nat 1) with 10. lia.
    + intros ->. lia.
    + intros _. rewrite length_app. cbn [length].
      replace (Z.of_nat (length l + 1) - 1) with (Z.of_nat (length l)) by lia.
      destruct (decide ((x `div` 10)%N = 0%N)) as [Hq|Hq].
      * rewrite (Hzero Hq). cbn [length]. change (10 ^ Z.of_nat 0) with 1. lia.
      * assert (Hpos : (0 < x `div` 10)%N) by (by apply N.neq_0_lt_0).
        specialize (Hfull Hpos). specialize (Hlow Hpos).
        assert (Hl1 : (1 ≤ length l)%nat) by (destruct l; [done|cbn; lia]).
        replace (Z.of_nat (length l)) with (1 + (Z.of_nat (length l) - 1)) by lia.
        rewrite Z.pow_add_r by lia. change (10 ^ 1) with 10.
        pose proof (N2Z.is_nonneg (x `mod` 10)%N). lia.
Qed.

Lemma lstrip_digits (l : list ascii) : Forall is_digit l → lstrip l = l.
Proof.
  destruct l as [|c l]; [done|]. intros H.
  inversion H as [|c' l' Hc Hl]; subst.
  cbn [lstrip]. by rewrite digit_not_space.
Qed.

Lemma strip_digits (l : list ascii) : Forall is_digit l → strip l = l.
Proof.
  intros H. unfold strip. rewrite (lstrip_digits l H).
  rewrite lstrip_digits by (by apply Forall_reverse).
  apply reverse_involutive.
Qed.

Lemma digit_not_sign c :
  is_digit c → Ascii.eqb c "-" = false ∧ Ascii.eqb c "+" = false.
Proof.
  intros [d H]. split; apply Ascii.eqb_neq; intros ->; discriminate H.
Qed.

(** [int] reads the decimal text of a natural number of at most 4300
    digits back as that number. *)
Lemma int_of_string_pretty (n : N) :
  (n < 10 ^ 4300)%N → int_of_string (pretty n) = Ok (Z.of_N n).
Proof.
  intros Hsmall.
  unfold pretty, pretty_N. destruct (decide (n = 0%N)) as [->|Hn]; [done|].
  destruct (pretty_N_go_digits n "") as (l & Hl & Hd & Hne & Hv & _ & Hlow).
  unfold int_of_string. rewrite Hl. cbn [String.list_ascii_of_string].
  rewrite app_nil_r, (digits_are_ascii l Hd), (count_digits_all l Hd).
  cbn [negb].
  assert (Hlen : (length l ≤ max_str_digits)%nat).
  { assert (Hpos : (0 < n)%N) by (by apply N.neq_0_lt_0).
    specialize (Hlow Hpos).
    apply N2Z.inj_lt in Hsmall. rewrite N2Z.inj_pow in Hsmall.
    change (Z.of_N 10) with 10 in Hsmall.
    change (Z.of_N 4300) with (Z.of_nat max_str_digits) in Hsmall.
    pose proof (Z.le_lt_trans _ _ _ Hlow Hsmall) as Hp.
    apply Z.pow_lt_mono_r_iff in Hp; [|done|apply Nat2Z.is_nonneg].
    clear -Hp. lia. }
  destruct (Nat.ltb_spec max_str_digits (length l)) as [Hgt|_]; [lia|].
  rewrite (strip_digits l Hd).
  destruct l as [|c r] eqn:El; [by destruct Hne; [lia|]|].
  rewrite <- El in *.
  assert (Hc : is_digit c) by (rewrite El in Hd; by inversion Hd).
  destruct (digit_not_sign c Hc) as [-> ->].
  rewrite (digits_all l 0 false Hd) by (left; by rewrite El).
  rewrite Hv. f_equal; lia.
Qed.

End Decimal.

(** ** C7: the response size metric *)

(** C7: with a start time recorded, a response whose content-length header
    reads as the integer [n] makes [after_request] send, after the timing
    metric, one histogram metric with value [n], with the tag list and the
    sample rate of the timing metric; this covers every header that is the
    decimal text of a byte count of at most 4300 digits, and a
    content-length of "512" gives the value 512; without the header only
    the timing metric is sent. *)
Theorem after_request_size_metric
    (self : StatsD.t) (d : DogStatsd) (c : gmap string PyVal)
    (response : Response) (w : World) (cx : Context) (t0 : float)
    (um : Attr) (auto rate name size_name value : PyVal) :
  StatsD.config self = Some c →
  StatsD.statsd self = Some d →
  dog_attrs d !! "timing" = Some (AttrMember "timing") →
  dog_attrs d !! "histogram" = Some (AttrMember "histogram") →
  dog_attrs d !! "use_ms" = Some um →
  c !! "DATADOG_RESPONSE_AUTO_TAG" = Some auto →
  c !! "DATADOG_RESPONSE_SAMPLE_RATE" = Some rate →
  c !! "DATADOG_RESPONSE_METRIC_NAME" = Some name →
  c !! "DATADOG_RESPONSE_SIZE_METRIC_NAME" = Some size_name →
  ctx w = Some cx →
  request_start_time (g cx) = Some t0 →
  let stored := default PNone (request_elapsed_time (g cx)) in
  let raw := if truthy stored then stored
             else PFloat (PrimFloat.sub (clock_time w) t0) in
  (if StatsD.attr_truthy um then milliseconds raw else Ok raw) = Ok value →
  let current := default [] (request_tags (g cx)) in
  let tags := if truthy auto
              then current ++ ["status_code:" +:+ pretty (status_code response)]
              else current in
  let g' := if truthy auto then set_request_tags tags (g cx) else g cx in
  let timed := with_call (with_g w cx g')
                         (timing_call name value (PList tags) rate) in
  (∀ text n,
     headers_getitem (headers response) "content-length" = Ok text →
     int_of_string text = Ok n →
     StatsD.after_request self response w
     = (Ok response,
        with_call timed (histogram_call size_name (PInt n) (PList tags) rate)))
  ∧ (∀ n : N,
       (n < 10 ^ 4300)%N →
       headers_getitem (headers response) "content-length" = Ok (pretty n) →
       StatsD.after_request self response w
       = (Ok response,
          with_call timed
            (histogram_call size_name (PInt (Z.of_N n)) (PList tags) rate)))
  ∧ (headers_getitem (headers response) "content-length" = Ok "512"%string →
     StatsD.after_request self response w
     = (Ok response,
        with_call timed (histogram_call size_name (PInt 512) (PList tags) rate)))
  ∧ (headers_contains (headers response) "content-length" = false →
     StatsD.after_request self response w = (Ok response, timed)).
Proof.
  intros Hc Hd Ht Hh Hu Ha Hr Hn Hz Hx Hs stored raw Hv current tags g' timed.
  rewrite (after_request_run self d c Hc Hd Ht response w cx t0 um auto rate
             name value Hu Ha Hr Hn Hx Hs Hv).
  fold current tags g' timed.
  assert (Hsize : ∀ text n,
            headers_getitem (headers response) "content-length" = Ok text →
            int_of_string text = Ok n →
            after_request_size self response tags rate timed
            = (Ok response,
               with_call timed
                 (histogram_call size_name (PInt n) (PList tags) rate))).
  { intros text n Hg Hi.
    by apply (after_request_size_present self d c Hc Hd) with (text := text). }
  split; [exact Hsize|]. split; [|split].
  - intros n Hsmall Hg. apply Hsize with (text := pretty n); [done|].
    by apply int_of_string_pretty.
  - intros Hg. by apply Hsize with (text := "512"%string).
  - by apply after_request_size_absent.
Qed.

Lemma after_request_size_metric_witness :
  let s := mkGStore (Some 10%float) (Some (PFloat 0.25)) (Some ["a:b"%string]) in
  let w := world_of s index_request 12 15 in
  let response := mkResponse 200 [("Content-Length", "512")]%string in
  let tags := PList ["a:b"; "status_code:200"]%string in
  calls (snd (StatsD.after_request default_statsd response w))
  = [timing_call (PStr "flask.response.time") (PFloat 0.25) tags (PInt 1);
     histogram_call (PStr "flask.response.size") (PInt 512) tags (PInt 1)].
Proof.
  intros s w response tags.
  rewrite (proj1 (proj2 (proj2
    (after_request_size_metric default_statsd default_client default_config
       response w (mkContext s (Some index_request)) 10%float
       (AttrValue (PBool false)) (PBool true) (PInt 1)
       (PStr "flask.response.time") (PStr "flask.response.size") (PFloat 0.25)
       eq_refl eq_refl eq_refl eq_refl eq_refl eq_refl eq_refl eq_refl eq_refl
       eq_refl eq_refl eq_refl))) eq_refl).
  reflexivity.
Defined.

(** ** C2: the automatic tags *)

Lemma occurrences_app tag l1 l2 :
  occurrences tag (l1 ++ l2) = (occurrences tag l1 + occurrences tag l2)%nat.
Proof. unfold occurrences. apply count_occ_app. Qed.

Lemma occurrences_concat_absent tag (adds : list (list string)) :
  (∀ l t, l ∈ adds → t ∈ l → t ≠ tag) → occurrences tag (concat adds) = 0%nat.
Proof.
  intros H. unfold occurrences. apply count_occ_not_In.
  intros Hin. apply in_concat in Hin as (l & Hl & Ht).
  refine (H l tag _ _ eq_refl); by apply list_elem_of_In.
Qed.

Lemma occurrences_single tag t :
  occurrences tag [t] = if decide (t = tag) then 1%nat else 0%nat.
Proof.
  unfold occurrences. cbn [count_occ].
  destruct (String.string_dec t tag); by case_decide.
Qed.

(** Under the default tag names the three automatic tags never coincide. *)
Lemma default_tags_distinct (e m s : string) :
  ("endpoint" +:+ ":" +:+ e ≠ "method" +:+ ":" +:+ m
   ∧ "endpoint" +:+ ":" +:+ e ≠ "status_code:" +:+ s
   ∧ "method" +:+ ":" +:+ m ≠ "status_code:" +:+ s)%string.
Proof. repeat split; discriminate. Qed.

(** C2 as worded does not hold for every pair of tag names: when the
    endpoint tag is configured with the name of the method tag and the
    endpoint reads like the method, the hook itself adds the same tag
    twice. *)
Lemma request_tags_once_counterexample :
  let w0 := world_of empty_g (mkRequest (Some "get") "GET") 10 10 in
  let w1 := snd (StatsD.before_request same_name_statsd w0) in
  let tags := ["method:get"; "method:get"; "status_code:200"]%string in
  calls (snd (StatsD.after_request same_name_statsd (mkResponse 200 []) w1))
  = [timing_call (PStr "flask.response.time") (PFloat 0) (PList tags) (PInt 1)]
  ∧ occurrences "method:get" tags = 2%nat.
Proof. cbv zeta. split; vm_compute; reflexivity. Qed.

(** C2 (amended): with auto-tagging enabled, if the endpoint tag, the
    method tag and the status tag are three different strings (as they
    always are under the default tag names) and the view adds none of them,
    then the tag list sent with the response-timing metric is the endpoint
    tag, the method tag, the view's tags and the status tag, in this order,
    and holds each of the three exactly once. *)
Theorem request_tags_once
    (self : StatsD.t) (d : DogStatsd) (c : gmap string PyVal)
    (w0 : World) (cx0 : Context) (r : Request) (adds : list (list string))
    (response : Response) (w : World)
    (um : Attr) (auto endpoint_name method_name rate name value : PyVal)
    (en mn : string) :
  StatsD.config self = Some c →
  StatsD.statsd self = Some d →
  dog_attrs d !! "timing" = Some (AttrMember "timing") →
  dog_attrs d !! "use_ms" = Some um →
  c !! "DATADOG_RESPONSE_AUTO_TAG" = Some auto →
  truthy auto = true →
  c !! "DATADOG_RESPONSE_ENDPOINT_TAG_NAME" = Some endpoint_name →
  c !! "DATADOG_RESPONSE_METHOD_TAG_NAME" = Some method_name →
  format endpoint_name = Ok en →
  format method_name = Ok mn →
  c !! "DATADOG_RESPONSE_SAMPLE_RATE" = Some rate →
  c !! "DATADOG_RESPONSE_METRIC_NAME" = Some name →
  ctx w0 = Some cx0 →
  request cx0 = Some r →
  let endpoint_tag :=
    en +:+ ":" +:+ lower (default "None"%string (endpoint r)) in
  let method_tag := mn +:+ ":" +:+ lower (method r) in
  let status_tag := "status_code:" +:+ pretty (status_code response) in
  endpoint_tag ≠ method_tag →
  endpoint_tag ≠ status_tag →
  method_tag ≠ status_tag →
  (∀ l t, l ∈ adds → t ∈ l →
          t ≠ endpoint_tag ∧ t ≠ method_tag ∧ t ≠ status_tag) →
  ctx w = ctx (snd (add_all self adds (snd (StatsD.before_request self w0)))) →
  let stored := default PNone (request_elapsed_time (g cx0)) in
  let raw := if truthy stored then stored
             else PFloat (PrimFloat.sub (clock_time w) (clock_monotonic w0)) in
  (if StatsD.attr_truthy um then milliseconds raw else Ok raw) = Ok value →
  let tags := endpoint_tag :: method_tag :: concat adds ++ [status_tag] in
  (∃ rest,
     calls (snd (StatsD.after_request self response w))
     = calls w ++ timing_call name value (PList tags) rate :: rest)
  ∧ occurrences endpoint_tag tags = 1%nat
  ∧ occurrences method_tag tags = 1%nat
  ∧ occurrences status_tag tags = 1%nat.
Proof.
  intros Hc Hd Ht Hu Ha Hauto He Hm Hfe Hfm Hr Hn Hx0 Hreq
         endpoint_tag method_tag status_tag Hem Hes Hms Hadds Hw
         stored raw Hv tags.
  split.
  - rewrite (before_request_run self c Hc w0 cx0 r auto endpoint_name
               method_name en mn Ha Hauto He Hm Hfe Hfm Hx0 Hreq) in Hw.
    cbn [snd] in Hw. fold endpoint_tag method_tag in Hw.
    set (s1 := mkGStore _ _ _) in Hw.
    destruct (add_all_in self adds (with_g w0 cx0 s1)
                (mkContext s1 (request cx0)) eq_refl)
      as (s & Hrun & Htags & Hstart & Helapsed).
    rewrite Hrun in Hw. subst s1. cbn [snd with_g ctx g request] in Hw.
    cbn [g request_tags request_start_time request_elapsed_time
         default from_option id] in Htags, Hstart, Helapsed.
    assert (Hvalue :
      (if StatsD.attr_truthy um
       then milliseconds
              (if truthy (default PNone (request_elapsed_time s))
               then default PNone (request_elapsed_time s)
               else PFloat (PrimFloat.sub (clock_time w) (clock_monotonic w0)))
       else Ok (if truthy (default PNone (request_elapsed_time s))
                then default PNone (request_elapsed_time s)
                else PFloat (PrimFloat.sub (clock_time w) (clock_monotonic w0))))
      = Ok value) by (by rewrite Helapsed).
    rewrite (after_request_run self d c Hc Hd Ht response w
               (mkContext s (request cx0)) (clock_monotonic w0) um auto rate
               name value Hu Ha Hr Hn Hw Hstart Hvalue).
    rewrite Hauto. cbn [g]. rewrite Htags.
    edestruct (after_request_size_calls self d c Hc Hd) as [rest Hrest].
    exists rest. rewrite Hrest. cbn [calls with_call with_g].
    rewrite <- !app_assoc. reflexivity.
  - assert (Hin : ∀ tag,
              (∀ l t, l ∈ adds → t ∈ l → t ≠ tag) →
              occurrences tag tags
              = (occurrences tag [endpoint_tag] + occurrences tag [method_tag]
                 + occurrences tag [status_tag])%nat).
    { intros tag H. subst tags.
      change (endpoint_tag :: method_tag :: concat adds ++ [status_tag])
        with ([endpoint_tag] ++ [method_tag] ++ concat adds ++ [status_tag]).
      rewrite !occurrences_app, (occurrences_concat_absent tag adds H). lia. }
    repeat split.
    + rewrite Hin by (intros l t Hl Hin'; by apply (Hadds l t)).
      rewrite !occurrences_single. repeat case_decide; congruence || done.
    + rewrite Hin by (intros l t Hl Hin'; by apply (Hadds l t)).
      rewrite !occurrences_single. repeat case_decide; congruence || done.
    + rewrite Hin by (intros l t Hl Hin'; by apply (Hadds l t)).
      rewrite !occurrences_single. repeat case_decide; congruence || done.
Qed.

Lemma request_tags_once_witness :
  let w0 := world_of empty_g index_request 10 100 in
  let adds := [["a:b"]; ["c:d"; "a:b"]]%string in
  let viewed := snd (add_all default_statsd adds
                       (snd (StatsD.before_request default_statsd w0))) in
  let w := mkWorld (ctx viewed) 12.5 102.5 [] in
  let tags := ["endpoint:index.view"; "method:get"; "a:b"; "c:d"; "a:b";
               "status_code:200"]%string in
  (∃ rest,
     calls (snd (StatsD.after_request default_statsd (mkResponse 200 []) w))
     = calls w ++ timing_call (PStr "flask.response.time") (PFloat 92.5)
                              (PList tags) (PInt 1) :: rest)
  ∧ occurrences "endpoint:index.view" tags = 1%nat
  ∧ occurrences "method:get" tags = 1%nat
  ∧ occurrences "status_code:200" tags = 1%nat.
Proof.
  intros w0 adds viewed w tags.
  apply (request_tags_once default_statsd default_client default_config
           w0 (mkContext empty_g (Some index_request)) index_request adds
           (mkResponse 200 []) w
           (AttrValue (PBool false)) (PBool true) (PStr "endpoint")
           (PStr "method") (PInt 1) (PStr "flask.response.time") (PFloat 92.5)
           "endpoint" "method");
    try reflexivity; try discriminate.
  intros l t Hl Ht.
  apply list_elem_of_In in Hl. apply list_elem_of_In in Ht.
  destruct Hl as [<-|[<-|[]]]; simpl in Ht;
    intuition (subst; discriminate).
Defined.

(** ** C9: timers *)

Section Timer.
Import TimerWrapper.

Lemma get_request_tags_total self w :
  ∃ l, StatsD.get_request_tags self w = (Ok l, w).
Proof.
  destruct (ctx w) as [cx|] eqn:Hx.
  - eexists. by apply get_request_tags_in.
  - eexists. by apply get_request_tags_out.
Qed.

Lemma bind_parameter_keyword args kwargs i name dflt v x :
  kwargs !! name = Some v →
  bind_parameter args kwargs i name dflt = Ok x → x = v.
Proof.
  unfold bind_parameter. intros ->. destruct (args !! i); congruence.
Qed.

Lemma bind_parameter_default args (kwargs : gmap string PyVal) i name dflt x :
  kwargs !! name = None → args !! i = None →
  bind_parameter args kwargs i name dflt = Ok x → x = dflt.
Proof. unfold bind_parameter. intros -> ->. congruence. Qed.

Lemma bind_parameter_positional args (kwargs : gmap string PyVal) i name dflt v x :
  args !! i = Some v →
  bind_parameter args kwargs i name dflt = Ok x → x = v.
Proof.
  unfold bind_parameter. intros ->. destruct (kwargs !! name); congruence.
Qed.

(** What a successful construction has bound. *)
Lemma init_fields client args kwargs tw :
  __init__ client args kwargs = Ok tw →
  statsd tw = client
  ∧ bind_parameter args kwargs 0 "metric" PNone = Ok (metric tw)
  ∧ bind_parameter args kwargs 1 "tags" PNone = Ok (tags tw)
  ∧ bind_parameter args kwargs 2 "sample_rate" (PInt 1) = Ok (sample_rate tw)
  ∧ bind_parameter args kwargs 3 "use_ms" PNone = Ok (use_ms tw)
  ∧ _start tw = None.
Proof.
  unfold __init__. intros H.
  repeat case_decide; try discriminate.
  destruct (bind_parameter args kwargs 0 _ _); [|discriminate].
  destruct (bind_parameter args kwargs 1 _ _); [|discriminate].
  destruct (bind_parameter args kwargs 2 _ _); [|discriminate].
  destruct (bind_parameter args kwargs 3 _ _); [|discriminate].
  cbn in H. by simplify_eq.
Qed.

(** Leaving a timer that holds a client: one timing call. *)
Lemma exit_run tw d s w value :
  statsd tw = Some d →
  dog_attrs d !! "timing" = Some (AttrMember "timing") →
  _start tw = Some s →
  let dt := PFloat (PrimFloat.sub (clock_monotonic w) s) in
  (if truthy (if is_None (use_ms tw) then PBool true else use_ms tw)
   then milliseconds dt else Ok dt) = Ok value →
  __exit__ tw w
  = (Ok (mk (statsd tw) (metric tw) (tags tw) (sample_rate tw) (use_ms tw)
            value (_start tw)),
     with_call w (timing_call (metric tw) value (tags tw) (sample_rate tw))).
Proof.
  intros Hd Ht Hs dt Hv. unfold __exit__. rewrite Hs. unfold _send.
  unfold time_monotonic at 1. erewrite bind_Ok by reflexivity.
  fold dt.
  assert (He : (if truthy (if is_None (use_ms tw) then PBool true else use_ms tw)
                then lift (milliseconds dt) else ret dt) w = (Ok value, w)).
  { destruct (truthy _); unfold lift, ret; by rewrite ?Hv; simplify_eq. }
  rewrite (bind_Ok _ _ _ _ _ He). rewrite Hd.
  unfold mbind at 1, M_bind at 1, bind at 1.
  rewrite (bind_Ok _ _ _ _ _ (lookup_method_member _ _ _ _ Ht)).
  rewrite Hs. reflexivity.
Qed.

End Timer.

Lemma timer_run self args kwargs w w' tw :
  StatsD.is_enabled self = true →
  StatsD.timer self args kwargs w = (Ok tw, w') →
  w' = w
  ∧ ∃ kwargs' : gmap string PyVal,
      TimerWrapper.__init__ (StatsD.statsd self) args kwargs' = Ok tw
      ∧ kwargs' !! "use_ms" = kwargs !! "use_ms"
      ∧ (is_None (default PNone (kwargs !! "tags")) = true →
         ∃ l, StatsD.get_request_tags self w = (Ok l, w)
              ∧ kwargs' !! "tags" = Some (PList l)).
Proof.
  intros He. unfold StatsD.timer, StatsD._setdefault_tags. rewrite He.
  destruct (is_None (default PNone (kwargs !! "tags"))) eqn:Hn.
  - destruct (get_request_tags_total self w) as [l Hl].
    erewrite bind_Ok; [|by erewrite bind_Ok by exact Hl].
    unfold lift. intros H. injection H as H <-. split; [done|].
    eexists. split; [exact H|]. split.
    + by rewrite lookup_insert_ne.
    + intros _. exists l. split; [done|]. by rewrite lookup_insert_eq.
  - rewrite ret_bind. unfold lift. intros H. injection H as H <-.
    split; [done|]. exists kwargs. split; [done|]. split; [done|]. discriminate.
Qed.

(** C9 as worded does not hold for every timer: [timer] on a client that
    [init_app] has not configured returns a timer without a client and
    without the request tags; entering and leaving it sends nothing. *)
Lemma timer_unconfigured_counterexample :
  let w := world_of (mkGStore (Some 1%float) None (Some ["a:b"%string]))
                    index_request 10 10 in
  let later := world_of (mkGStore (Some 1%float) None (Some ["a:b"%string]))
                        index_request 12 12 in
  let tw := TimerWrapper.mk None (PStr "db.query") PNone (PInt 1) PNone PNone None in
  let entered := TimerWrapper.mk None (PStr "db.query") PNone (PInt 1) PNone PNone
                                 (Some 10%float) in
  StatsD.timer unconfigured_statsd [PStr "db.query"] ∅ w = (Ok tw, w)
  ∧ StatsD.get_request_tags unconfigured_statsd w = (Ok ["a:b"%string], w)
  ∧ TimerWrapper.tags tw = PNone
  ∧ TimerWrapper.__enter__ tw w = (Ok entered, w)
  ∧ calls (snd (TimerWrapper.__exit__ entered later)) = [].
Proof. cbv zeta. repeat split; vm_compute; reflexivity. Qed.

(** C9 (amended): for every timer obtained from [timer] on a client that
    [init_app] has configured: entering and leaving it (or starting and
    stopping it) sends exactly one timing metric, for the time between
    entry and exit on the monotonic clock; the value is
    [int(round(1000 * elapsed))] unless [use_ms] was given as False, and
    then it is the elapsed time itself; when the caller gave no tags the
    timer carries the request's tag list as it was when the timer was
    made. *)
Theorem timer_reports_once
    (self : StatsD.t) (d : DogStatsd)
    (args : list PyVal) (kwargs : gmap string PyVal)
    (w0 w0' : World) (tw : TimerWrapper.t) :
  StatsD.is_enabled self = true →
  StatsD.statsd self = Some d →
  dog_attrs d !! "timing" = Some (AttrMember "timing") →
  StatsD.timer self args kwargs w0 = (Ok tw, w0') →
  w0' = w0
  ∧ (∀ n rest, args = n :: rest → TimerWrapper.metric tw = n)
  ∧ (is_None (default PNone (kwargs !! "tags")) = true →
     ∃ l, StatsD.get_request_tags self w0 = (Ok l, w0)
          ∧ TimerWrapper.tags tw = PList l)
  ∧ (∀ v, kwargs !! "use_ms" = Some v → TimerWrapper.use_ms tw = v)
  ∧ (kwargs !! "use_ms" = None → args !! 3%nat = None →
     TimerWrapper.use_ms tw = PNone)
  ∧ ∀ w1 w2,
      let dt := PrimFloat.sub (clock_monotonic w2) (clock_monotonic w1) in
      ∃ tw1,
        TimerWrapper.__enter__ tw w1 = (Ok tw1, w1)
        ∧ TimerWrapper.start tw w1 = (Ok tw1, w1)
        ∧ TimerWrapper.stop tw1 w2 = TimerWrapper.__exit__ tw1 w2
        ∧ (TimerWrapper.use_ms tw = PBool false →
           ∃ tw2,
             TimerWrapper.__exit__ tw1 w2
             = (Ok tw2,
                with_call w2
                  (timing_call (TimerWrapper.metric tw) (PFloat dt)
                     (TimerWrapper.tags tw) (TimerWrapper.sample_rate tw))))
        ∧ (∀ ms,
             TimerWrapper.use_ms tw = PNone
             ∨ truthy (TimerWrapper.use_ms tw) = true →
             int_round (PrimFloat.mul 1000 dt) = Ok ms →
             ∃ tw2,
               TimerWrapper.__exit__ tw1 w2
               = (Ok tw2,
                  with_call w2
                    (timing_call (TimerWrapper.metric tw) (PInt ms)
                       (TimerWrapper.tags tw) (TimerWrapper.sample_rate tw)))).
Proof.
  intros He Hd Ht Hrun.
  destruct (timer_run self args kwargs w0 w0' tw He Hrun)
    as (-> & kwargs' & Hinit & Hms & Htags).
  destruct (init_fields _ _ _ _ Hinit) as (Hs & Hm & Htg & _ & Hu & Hst).
  rewrite Hd in Hs.
  split; [done|]. split; [|split; [|split; [|split]]].
  - intros n rest ->.
    by apply (bind_parameter_positional (n :: rest) kwargs' 0 "metric" PNone).
  - intros Hn. destruct (Htags Hn) as (l & Hl & Hk).
    exists l. split; [done|].
    by apply (bind_parameter_keyword _ _ _ _ _ _ _ Hk Htg).
  - intros v Hv. rewrite <- Hms in Hv.
    by apply (bind_parameter_keyword _ _ _ _ _ _ _ Hv Hu).
  - intros Hv Ha. rewrite <- Hms in Hv.
    by apply (bind_parameter_default _ _ _ _ _ _ Hv Ha Hu).
  - intros w1 w2 dt.
    set (tw1 := TimerWrapper.mk (TimerWrapper.statsd tw) (TimerWrapper.metric tw)
                  (TimerWrapper.tags tw) (TimerWrapper.sample_rate tw)
                  (TimerWrapper.use_ms tw) (TimerWrapper.elapsed tw)
                  (Some (clock_monotonic w1))).
    exists tw1.
    split; [reflexivity|]. split; [reflexivity|]. split; [reflexivity|].
    assert (Hexit : ∀ value,
              (if truthy (if is_None (TimerWrapper.use_ms tw) then PBool true
                          else TimerWrapper.use_ms tw)
               then milliseconds (PFloat dt) else Ok (PFloat dt)) = Ok value →
              ∃ tw2,
                TimerWrapper.__exit__ tw1 w2
                = (Ok tw2,
                   with_call w2
                     (timing_call (TimerWrapper.metric tw) value
                        (TimerWrapper.tags tw) (TimerWrapper.sample_rate tw)))).
    { intros value Hv. eexists.
      by apply (exit_run tw1 d (clock_monotonic w1) w2 value Hs Ht eq_refl). }
    split.
    + intros Hf. apply Hexit. by rewrite Hf.
    + intros ms Hcase Hround. apply Hexit.
      assert (truthy (if is_None (TimerWrapper.use_ms tw) then PBool true
                      else TimerWrapper.use_ms tw) = true) as ->.
      { destruct Hcase as [->|Hcase]; [done|].
        by destruct (is_None (TimerWrapper.use_ms tw)). }
      cbn [milliseconds]. by rewrite Hround.
Qed.

Lemma timer_reports_once_witness :
  let s := mkGStore (Some 1%float) None (Some ["a:b"%string]) in
  let w0 := world_of s index_request 9 9 in
  let w1 := world_of s index_request 10 10 in
  let w2 := world_of s index_request 10.0625 11 in
  let tw := TimerWrapper.mk (Some default_client) (PStr "db.query")
                            (PList ["a:b"%string]) (PInt 1) PNone PNone None in
  StatsD.timer default_statsd [PStr "db.query"] ∅ w0 = (Ok tw, w0)
  ∧ ∃ tw1 tw2,
      TimerWrapper.__enter__ tw w1 = (Ok tw1, w1)
      ∧ TimerWrapper.__exit__ tw1 w2
        = (Ok tw2,
           with_call w2 (timing_call (PStr "db.query") (PInt 62)
                           (PList ["a:b"%string]) (PInt 1))).
Proof.
  intros s w0 w1 w2 tw.
  assert (Htimer : StatsD.timer default_statsd [PStr "db.query"] ∅ w0 = (Ok tw, w0))
    by reflexivity.
  split; [exact Htimer|].
  destruct (timer_reports_once default_statsd default_client
              [PStr "db.query"] ∅ w0 w0 tw eq_refl eq_refl eq_refl Htimer)
    as (_ & _ & _ & _ & _ & Hrun).
  destruct (Hrun w1 w2) as (tw1 & Henter & _ & _ & _ & Hms).
  destruct (Hms 62 (or_introl eq_refl) eq_refl) as [tw2 Hexit].
  exists tw1, tw2. split; [exact Henter|exact Hexit].
Defined.

(** ** Further worked examples *)

(** An enabled client forwards [incr] with the request tags filled in. *)
Example incr_enabled :
  let w := world_of (mkGStore (Some 1%float) None (Some ["a:b"%string]))
                    index_request 2 2 in
  StatsD.incr default_statsd [PStr "page.views"] ∅ w
  = (Ok PNone,
     with_call w (mkCall "increment" [PStr "page.views"]
                         {["tags" := PList ["a:b"%string]]})).
Proof. reflexivity. Qed.

(** Tags given by the caller are kept. *)
Example gauge_own_tags :
  let w := world_of (mkGStore (Some 1%float) None (Some ["a:b"%string]))
                    index_request 2 2 in
  StatsD.gauge default_statsd [PStr "queue.size"; PInt 7]
               {["tags" := PList ["x:y"%string]]} w
  = (Ok PNone,
     with_call w (mkCall "gauge" [PStr "queue.size"; PInt 7]
                         {["tags" := PList ["x:y"%string]]})).
Proof. reflexivity. Qed.

(** Tags given by position collide with the tags [timer] fills in. *)
Example timer_positional_tags :
  let w := world_of empty_g index_request 2 2 in
  StatsD.timer default_statsd [PStr "db.query"; PList ["x:y"%string]] ∅ w
  = (Raise TypeError, w).
Proof. reflexivity. Qed.

(** One request through both hooks.  The start time is read from
    [time.monotonic()] (line 187) and the end time from [time.time()]
    (line 217), so the value sent is the difference of the two clocks. *)
Example request_through_both_hooks :
  let w0 := world_of empty_g index_request 10 1000 in
  let w1 := snd (StatsD.before_request default_statsd w0) in
  let w2 := mkWorld (ctx w1) 12.5 1002.5 (calls w1) in
  let tags := PList ["endpoint:index.view"; "method:get"; "status_code:200"]%string in
  StatsD.after_request default_statsd
    (mkResponse 200 [("Content-Length", "512")]%string) w2
  = (Ok (mkResponse 200 [("Content-Length", "512")]%string),
     mkWorld (Some (mkContext
                (mkGStore (Some 10%float) None
                   (Some ["endpoint:index.view"; "method:get"; "status_code:200"]%string))
                (Some index_request)))
             12.5 1002.5
             [timing_call (PStr "flask.response.time") (PFloat 992.5) tags (PInt 1);
              histogram_call (PStr "flask.response.size") (PInt 512) tags (PInt 1)]).
Proof. vm_compute. reflexivity. Qed.

(** Called with no context at all, [after_request] does not reach its early
    return: the test on [g] itself raises. *)
Example after_request_no_context :
  StatsD.after_request default_statsd (mkResponse 200 []) (no_context 1 2)
  = (Raise RuntimeError, no_context 1 2).
Proof. reflexivity. Qed.

(** * Further properties of the code *)

(** ** The tag list: composition and reading back *)

(** X1: inside a context, adding [l1] and then [l2] is the same, in what
    is returned and in what is stored, as adding [l1 ++ l2] at once. *)
Theorem add_request_tags_compose
    (self : StatsD.t) (l1 l2 : list string) (w : World) (cx : Context) :
  ctx w = Some cx →
  (StatsD.add_request_tags self l1;; StatsD.add_request_tags self l2) w
  = StatsD.add_request_tags self (l1 ++ l2) w.
Proof.
  intros Hx.
  rewrite (bind_Ok _ _ _ _ _ (add_request_tags_in self l1 _ _ Hx)).
  erewrite add_request_tags_in by reflexivity.
  rewrite (add_request_tags_in self (l1 ++ l2) _ _ Hx).
  cbn [g request_tags set_request_tags default from_option id].
  rewrite <- app_assoc. reflexivity.
Qed.

Lemma add_request_tags_compose_witness :
  let w := world_of (mkGStore (Some 1%float) None (Some ["a:b"%string]))
                    index_request 1 2 in
  (StatsD.add_request_tags default_statsd ["c:d"%string];;
   StatsD.add_request_tags default_statsd ["e:f"; "a:b"]%string) w
  = StatsD.add_request_tags default_statsd ["c:d"; "e:f"; "a:b"]%string w.
Proof.
  intros w.
  apply (add_request_tags_compose default_statsd ["c:d"%string]
           ["e:f"; "a:b"]%string w
           (mkContext (mkGStore (Some 1%float) None (Some ["a:b"%string]))
                      (Some index_request)) eq_refl).
Defined.

(** X2: inside a context, what [add_request_tags] returns is what
    [get_request_tags] returns afterwards, and the addition touches
    nothing but the tag list: start time, stored elapsed value, request,
    clocks and the calls already made stay as they were. *)
Theorem add_request_tags_read_back
    (self : StatsD.t) (tags : list string) (w : World) (cx : Context) :
  ctx w = Some cx →
  ∃ l w' cx',
    StatsD.add_request_tags self tags w = (Ok l, w')
    ∧ StatsD.get_request_tags self w' = (Ok l, w')
    ∧ ctx w' = Some cx'
    ∧ request_start_time (g cx') = request_start_time (g cx)
    ∧ request_elapsed_time (g cx') = request_elapsed_time (g cx)
    ∧ request cx' = request cx
    ∧ clock_monotonic w' = clock_monotonic w
    ∧ clock_time w' = clock_time w
    ∧ calls w' = calls w.
Proof.
  intros Hx.
  eexists _, _, _. split; [by apply add_request_tags_in|].
  split; [by erewrite get_request_tags_in by reflexivity|].
  repeat split.
Qed.

Lemma add_request_tags_read_back_witness :
  let w := world_of (mkGStore (Some 1%float) (Some (PFloat 3)) (Some ["a:b"%string]))
                    index_request 1 2 in
  ∃ l w' cx',
    StatsD.add_request_tags default_statsd ["c:d"%string] w = (Ok l, w')
    ∧ StatsD.get_request_tags default_statsd w' = (Ok l, w')
    ∧ ctx w' = Some cx'
    ∧ request_start_time (g cx') = Some 1%float
    ∧ request_elapsed_time (g cx') = Some (PFloat 3)
    ∧ request cx' = Some index_request
    ∧ clock_monotonic w' = clock_monotonic w
    ∧ clock_time w' = clock_time w
    ∧ calls w' = calls w.
Proof.
  intros w.
  apply (add_request_tags_read_back default_statsd ["c:d"%string] w
           (mkContext (mkGStore (Some 1%float) (Some (PFloat 3))
                                (Some ["a:b"%string])) (Some index_request)) eq_refl).
Defined.

(** X3: inside a context whose [g] has no tag list yet (the hooks did not
    run), [get_request_tags] returns the empty list without creating the
    attribute, and [add_request_tags] stores exactly the tags given. *)
Theorem tags_before_any_hook
    (self : StatsD.t) (tags : list string) (w : World) (cx : Context) :
  ctx w = Some cx →
  request_tags (g cx) = None →
  StatsD.get_request_tags self w = (Ok [], w)
  ∧ StatsD.add_request_tags self tags w
    = (Ok tags, with_g w cx (set_request_tags tags (g cx))).
Proof.
  intros Hx Hn. split.
  - rewrite (get_request_tags_in self _ _ Hx). by rewrite Hn.
  - rewrite (add_request_tags_in self tags _ _ Hx). by rewrite Hn.
Qed.

Lemma tags_before_any_hook_witness :
  let w := world_of empty_g index_request 1 2 in
  StatsD.get_request_tags default_statsd w = (Ok [], w)
  ∧ StatsD.add_request_tags default_statsd ["a:b"%string] w
    = (Ok ["a:b"%string],
       world_of (mkGStore None None (Some ["a:b"%string])) index_request 1 2).
Proof.
  intros w.
  apply (tags_before_any_hook default_statsd ["a:b"%string] w
           (mkContext empty_g (Some index_request)) eq_refl eq_refl).
Defined.

(** ** What the operations never do to the world *)

Section Sends.
Context {A B : Type}.

Lemma sends_ret (a : A) : sends_at_most 0 (ret a).
Proof. intros w. repeat split. exists []. by rewrite app_nil_r. Qed.

Lemma sends_raise (e : Exn) : sends_at_most 0 (@raise A e).
Proof. intros w. repeat split. exists []. by rewrite app_nil_r. Qed.

Lemma sends_lift (r : Result A) : sends_at_most 0 (lift r).
Proof. intros w. repeat split. exists []. by rewrite app_nil_r. Qed.

Lemma sends_weaken (n p : nat) (m : M A) :
  (n ≤ p)%nat → sends_at_most n m → sends_at_most p m.
Proof.
  intros Hle H w. destruct (H w) as (H1 & H2 & H3 & rest & H4 & H5).
  repeat split; try done. exists rest. split; [done|lia].
Qed.

Lemma sends_bind (n p : nat) (m : M A) (k : A → M B) :
  sends_at_most n m → (∀ a, sends_at_most p (k a)) →
  sends_at_most (n + p) (m ≫= k).
Proof.
  intros Hm Hk w. unfold mbind, M_bind, bind.
  destruct (Hm w) as (H1 & H2 & H3 & rest & H4 & H5).
  destruct (m w) as [[a|e] w1]; cbn [snd] in *.
  - destruct (Hk a w1) as (K1 & K2 & K3 & rest' & K4 & K5).
    repeat split; try congruence.
    exists (rest ++ rest'). rewrite K4, H4, app_assoc, length_app.
    split; [done|lia].
  - repeat split; try done. exists rest. split; [done|lia].
Qed.

Lemma sends_except (n p : nat) (body handler : M A) :
  sends_at_most n body → sends_at_most p handler →
  sends_at_most (n + p) (except_RuntimeError body handler).
Proof.
  intros Hb Hh w. unfold except_RuntimeError.
  destruct (Hb w) as (H1 & H2 & H3 & rest & H4 & H5).
  assert (Hkeep : clock_monotonic (body w).2 = clock_monotonic w
                  ∧ clock_time (body w).2 = clock_time w
                  ∧ request <$> ctx (body w).2 = request <$> ctx w
                  ∧ ∃ rest0, calls (body w).2 = calls w ++ rest0
                             ∧ (length rest0 ≤ n + p)%nat).
  { repeat split; try done. exists rest. split; [done|lia]. }
  destruct (body w) as [[a|e] w1] eqn:Hbody; cbn [snd] in *; [exact Hkeep|].
  destruct e; try exact Hkeep.
  destruct (Hh w1) as (K1 & K2 & K3 & rest' & K4 & K5).
  repeat split; try congruence.
  exists (rest ++ rest'). rewrite K4, H4, app_assoc, length_app.
  split; [done|lia].
Qed.

End Sends.

Lemma sends_unchanged {A} (m : M A) :
  (∀ w, snd (m w) = w) → sends_at_most 0 m.
Proof.
  intros H w. rewrite H. repeat split. exists []. by rewrite app_nil_r.
Qed.

Lemma sends_time_monotonic : sends_at_most 0 time_monotonic.
Proof. by apply sends_unchanged. Qed.

Lemma sends_time_time : sends_at_most 0 time_time.
Proof. by apply sends_unchanged. Qed.

Lemma sends_g_read : sends_at_most 0 g_read.
Proof. apply sends_unchanged. intros w. unfold g_read. by destruct (ctx w). Qed.

Lemma sends_request_read : sends_at_most 0 request_read.
Proof.
  apply sends_unchanged. intros w. unfold request_read.
  by destruct (ctx w ≫= request).
Qed.

Lemma sends_g_write f : sends_at_most 0 (g_write f).
Proof.
  intros w. unfold g_write.
  destruct (ctx w) as [cx|] eqn:Hx; cbn [snd with_g clock_monotonic clock_time
                                         ctx calls fmap option_fmap option_map
                                         request].
  - split; [done|]. split; [done|]. split; [done|].
    exists []. by rewrite app_nil_r.
  - rewrite Hx. split; [done|]. split; [done|]. split; [done|].
    exists []. by rewrite app_nil_r.
Qed.

Lemma sends_lookup_method client name : sends_at_most 0 (lookup_method client name).
Proof.
  unfold lookup_method. destruct client as [d|]; [|apply sends_raise].
  destruct (dog_attrs d !! name) as [[v|m]|];
    [apply sends_raise|apply sends_ret|apply sends_raise].
Qed.

Lemma sends_record_call m args kwargs : sends_at_most 1 (record_call m args kwargs).
Proof.
  unfold record_call. destruct (method_parameters m) as [params|].
  - destruct (binds params args kwargs).
    + intros w. repeat split. eexists. split; [reflexivity|]. cbn. lia.
    + apply (sends_weaken 0 1); [lia|apply sends_raise].
  - apply (sends_weaken 0 1); [lia|apply sends_raise].
Qed.

Lemma sends_get_request_tags self : sends_at_most 0 (StatsD.get_request_tags self).
Proof.
  unfold StatsD.get_request_tags.
  apply (sends_except 0 0); [|apply sends_ret].
  apply (sends_bind 0 0); [apply sends_g_read|]. intros s. apply sends_ret.
Qed.

Lemma sends_add_request_tags self tags :
  sends_at_most 0 (StatsD.add_request_tags self tags).
Proof.
  unfold StatsD.add_request_tags.
  apply (sends_bind 0 0); [apply sends_get_request_tags|]. intros current.
  apply (sends_bind 0 0).
  - apply (sends_except 0 0); [|apply sends_ret].
    apply (sends_bind 0 0); [apply sends_g_write|]. intros _. apply sends_ret.
  - intros [|]; [|apply sends_ret].
    unfold g_request_tags.
    apply (sends_bind 0 0); [apply sends_g_read|]. intros s.
    destruct (request_tags s); [apply sends_ret|apply sends_raise].
Qed.

Lemma sends_setdefault_tags self kwargs :
  sends_at_most 0 (StatsD._setdefault_tags self kwargs).
Proof.
  unfold StatsD._setdefault_tags.
  destruct (is_None _); [|apply sends_ret].
  apply (sends_bind 0 0); [apply sends_get_request_tags|]. intros l.
  apply sends_ret.
Qed.

Ltac sends_leaf :=
  first [ apply sends_ret | apply sends_raise | apply sends_lift
        | apply sends_time_monotonic | apply sends_time_time
        | apply sends_g_read | apply sends_request_read | apply sends_g_write
        | apply sends_lookup_method | apply sends_get_request_tags
        | apply sends_add_request_tags | apply sends_setdefault_tags ].

Ltac sends_tac :=
  lazymatch goal with
  | |- sends_at_most 0 (_ ≫= _) =>
      apply (sends_bind 0 0); [sends_tac | intros ?; sends_tac]
  | |- sends_at_most (S ?n) (_ ≫= _) =>
      first [ apply (sends_bind 0 (S n)); [solve [sends_tac] | intros ?; sends_tac]
            | apply (sends_bind 1 n); [solve [sends_tac] | intros ?; sends_tac] ]
  | |- sends_at_most _ (match ?x with _ => _ end) => destruct x; sends_tac
  | |- sends_at_most 0 _ => sends_leaf
  | |- sends_at_most (S ?n) _ =>
      first [ apply sends_record_call
            | apply (sends_weaken 0 (S n)); [lia | sends_tac] ]
  end.

(** X4: whatever the state of the client, of [g] and of the response, and
    also when they raise: [before_request], [get_request_tags] and
    [add_request_tags] make no call on the wrapped client, and
    [after_request] makes at most two; none of them changes a clock or the
    request, pushes or pops a context, or drops or reorders a call made
    before. *)
Theorem hooks_call_budget (self : StatsD.t) (tags : list string) (response : Response) :
  sends_at_most 0 (StatsD.before_request self)
  ∧ sends_at_most 2 (StatsD.after_request self response)
  ∧ sends_at_most 0 (StatsD.get_request_tags self)
  ∧ sends_at_most 0 (StatsD.add_request_tags self tags).
Proof.
  split; [|split; [|split]].
  - unfold StatsD.before_request. sends_tac.
  - unfold StatsD.after_request, g_request_start_time. sends_tac.
  - apply sends_get_request_tags.
  - apply sends_add_request_tags.
Qed.

(** X5: whatever their arguments and the state of the client, and also
    when they raise: [incr], [decr] and [gauge] make at most one call on
    the wrapped client, making a timer makes none, entering a timer makes
    none and leaving it at most one; none of them changes a clock or the
    request, or drops or reorders a call made before. *)
Theorem forwarding_call_budget
    (self : StatsD.t) (args : list PyVal) (kwargs : gmap string PyVal)
    (tw : TimerWrapper.t) :
  sends_at_most 1 (StatsD.incr self args kwargs)
  ∧ sends_at_most 1 (StatsD.decr self args kwargs)
  ∧ sends_at_most 1 (StatsD.gauge self args kwargs)
  ∧ sends_at_most 0 (StatsD.timer self args kwargs)
  ∧ sends_at_most 0 (TimerWrapper.__enter__ tw)
  ∧ sends_at_most 1 (TimerWrapper.__exit__ tw)
  ∧ sends_at_most 0 (TimerWrapper.start tw)
  ∧ sends_at_most 1 (TimerWrapper.stop tw).
Proof.
  assert (Henter : sends_at_most 0 (TimerWrapper.__enter__ tw))
    by (unfold TimerWrapper.__enter__; sends_tac).
  assert (Hexit : sends_at_most 1 (TimerWrapper.__exit__ tw))
    by (unfold TimerWrapper.__exit__, TimerWrapper._send; sends_tac).
  split; [|split; [|split; [|split; [|split; [|split; [|split]]]]]];
    try exact Henter; try exact Hexit.
  - unfold StatsD.incr. sends_tac.
  - unfold StatsD.decr. sends_tac.
  - unfold StatsD.gauge. sends_tac.
  - unfold StatsD.timer. sends_tac.
Qed.

(** ** More on [after_request] *)

Lemma bind_inv {A B} (m : M A) (k : A → M B) w b w' :
  (m ≫= k) w = (Ok b, w') →
  ∃ a w1, m w = (Ok a, w1) ∧ k a w1 = (Ok b, w').
Proof.
  unfold mbind, M_bind, bind. destruct (m w) as [[a|e] w1]; [|discriminate].
  intros H. by exists a, w1.
Qed.

(** X6: whenever [after_request] returns at all, in any state and for any
    client and headers, what it returns is the response it was given. *)
Theorem after_request_returns_its_response
    (self : StatsD.t) (response r : Response) (w w' : World) :
  StatsD.after_request self response w = (Ok r, w') → r = response.
Proof.
  unfold StatsD.after_request. intros H.
  apply bind_inv in H as (s & w1 & _ & H). cbv beta in H.
  destruct (negb _); [by injection H as <- _|].
  repeat (apply bind_inv in H as (? & ? & _ & H); cbv beta in H).
  by injection H as <- _.
Qed.

Lemma after_request_returns_its_response_witness :
  let response := mkResponse 404 [("content-length", "12")]%string in
  let w := world_of (mkGStore (Some 10%float) None None) index_request 12 15 in
  fst (StatsD.after_request default_statsd response w) = Ok response.
Proof.
  intros response w.
  destruct (StatsD.after_request default_statsd response w) as [[r|e] w'] eqn:H.
  - cbn [fst]. f_equal.
    exact (after_request_returns_its_response default_statsd response r w w' H).
  - vm_compute in H. discriminate H.
Defined.

(** X7: with no context, both hooks raise [RuntimeError] (they do not fail
    soft as the tag helpers do) and leave the world as it was. *)
Theorem hooks_outside_context (self : StatsD.t) (response : Response) (w : World) :
  ctx w = None →
  StatsD.before_request self w = (Raise RuntimeError, w)
  ∧ StatsD.after_request self response w = (Raise RuntimeError, w).
Proof.
  intros Hx. split.
  - unfold StatsD.before_request, time_monotonic.
    erewrite bind_Ok by reflexivity.
    apply bind_Raise. unfold g_write. by rewrite Hx.
  - unfold StatsD.after_request. apply bind_Raise. by apply g_read_out.
Qed.

Lemma hooks_outside_context_witness :
  StatsD.before_request default_statsd (no_context 1 2)
  = (Raise RuntimeError, no_context 1 2)
  ∧ StatsD.after_request default_statsd (mkResponse 200 []) (no_context 1 2)
    = (Raise RuntimeError, no_context 1 2).
Proof. apply hooks_outside_context. reflexivity. Defined.

Lemma headers_getitem_contains hs key text :
  headers_getitem hs key = Ok text → headers_contains hs key = true.
Proof.
  unfold headers_getitem, headers_contains.
  destruct (List.find _ _) as [h|] eqn:Hf; [|done]. intros _.
  apply existsb_exists. exists h. by apply find_some in Hf.
Qed.

(** X8: a content-length header on which [int] raises [ValueError] (text
    that is no integer literal, such as "12 bytes") makes [after_request]
    raise [ValueError], and this happens after the timing metric has been
    sent and the status tag stored: the timing call is made, no size
    metric follows, and no response is returned. *)
Theorem after_request_unreadable_length
    (self : StatsD.t) (d : DogStatsd) (c : gmap string PyVal)
    (response : Response) (w : World) (cx : Context) (t0 : float)
    (um : Attr) (auto rate name value : PyVal) (text : string) :
  StatsD.config self = Some c →
  StatsD.statsd self = Some d →
  dog_attrs d !! "timing" = Some (AttrMember "timing") →
  dog_attrs d !! "use_ms" = Some um →
  c !! "DATADOG_RESPONSE_AUTO_TAG" = Some auto →
  c !! "DATADOG_RESPONSE_SAMPLE_RATE" = Some rate →
  c !! "DATADOG_RESPONSE_METRIC_NAME" = Some name →
  ctx w = Some cx →
  request_start_time (g cx) = Some t0 →
  let stored := default PNone (request_elapsed_time (g cx)) in
  let raw := if truthy stored then stored
             else PFloat (PrimFloat.sub (clock_time w) t0) in
  (if StatsD.attr_truthy um then milliseconds raw else Ok raw) = Ok value →
  headers_getitem (headers response) "content-length" = Ok text →
  int_of_string text = Raise ValueError →
  let current := default [] (request_tags (g cx)) in
  let tags := if truthy auto
              then current ++ ["status_code:" +:+ pretty (status_code response)]
              else current in
  let g' := if truthy auto then set_request_tags tags (g cx) else g cx in
  StatsD.after_request self response w
  = (Raise ValueError,
     with_call (with_g w cx g') (timing_call name value (PList tags) rate)).
Proof.
  intros Hc Hd Ht Hu Ha Hr Hn Hx Hs stored raw Hv Hg Hi current tags g'.
  rewrite (after_request_run self d c Hc Hd Ht response w cx t0 um auto rate
             name value Hu Ha Hr Hn Hx Hs Hv).
  fold current tags g'. unfold after_request_size.
  rewrite (headers_getitem_contains _ _ _ Hg).
  unfold mbind at 1, M_bind at 1, bind at 1.
  by rewrite lift_bind, Hg, lift_bind, Hi.
Qed.

Lemma after_request_unreadable_length_witness :
  let s := mkGStore (Some 10%float) (Some (PFloat 0.25)) (Some ["a:b"%string]) in
  let w := world_of s index_request 12 15 in
  let response := mkResponse 200 [("Content-Length", "12 bytes")]%string in
  StatsD.after_request default_statsd response w
  = (Raise ValueError,
     with_call
       (world_of (mkGStore (Some 10%float) (Some (PFloat 0.25))
                           (Some ["a:b"; "status_code:200"]%string))
                 index_request 12 15)
       (timing_call (PStr "flask.response.time") (PFloat 0.25)
                    (PList ["a:b"; "status_code:200"]%string) (PInt 1))).
Proof.
  intros s w response.
  apply (after_request_unreadable_length default_statsd default_client
           default_config response w (mkContext s (Some index_request)) 10%float
           (AttrValue (PBool false)) (PBool true) (PInt 1)
           (PStr "flask.response.time") (PFloat 0.25) "12 bytes");
    reflexivity.
Defined.

(** X9: with DATADOG_RESPONSE_AUTO_TAG false, [after_request] adds no
    status tag, whatever the response: the timing metric carries the tag
    list as it stands and [g] is left as it was.  When the response has no
    content-length header the timing metric is all that is sent. *)
Theorem after_request_without_auto_tag
    (self : StatsD.t) (d : DogStatsd) (c : gmap string PyVal)
    (response : Response) (w : World) (cx : Context) (t0 : float)
    (um : Attr) (auto rate name value : PyVal) :
  StatsD.config self = Some c →
  StatsD.statsd self = Some d →
  dog_attrs d !! "timing" = Some (AttrMember "timing") →
  dog_attrs d !! "use_ms" = Some um →
  c !! "DATADOG_RESPONSE_AUTO_TAG" = Some auto →
  truthy auto = false →
  c !! "DATADOG_RESPONSE_SAMPLE_RATE" = Some rate →
  c !! "DATADOG_RESPONSE_METRIC_NAME" = Some name →
  ctx w = Some cx →
  request_start_time (g cx) = Some t0 →
  let stored := default PNone (request_elapsed_time (g cx)) in
  let raw := if truthy stored then stored
             else PFloat (PrimFloat.sub (clock_time w) t0) in
  (if StatsD.attr_truthy um then milliseconds raw else Ok raw) = Ok value →
  let timing := timing_call name value
                  (PList (default [] (request_tags (g cx)))) rate in
  (∃ rest,
     calls (snd (StatsD.after_request self response w))
     = calls w ++ timing :: rest)
  ∧ ctx (snd (StatsD.after_request self response w)) = Some cx
  ∧ (headers_contains (headers response) "content-length" = false →
     StatsD.after_request self response w = (Ok response, with_call w timing)).
Proof.
  intros Hc Hd Ht Hu Ha Hoff Hr Hn Hx Hs stored raw Hv timing.
  rewrite (after_request_run self d c Hc Hd Ht response w cx t0 um auto rate
             name value Hu Ha Hr Hn Hx Hs Hv).
  rewrite Hoff, (with_g_same _ _ Hx). fold timing.
  split; [|split].
  - edestruct (after_request_size_calls self d c Hc Hd) as [rest Hrest].
    exists rest. rewrite Hrest. cbn [calls with_call].
    by rewrite <- app_assoc.
  - edestruct (after_request_size_frame self d c Hc Hd) as [rest Hrest].
    by rewrite Hrest.
  - intros Hh. by apply after_request_size_absent.
Qed.

Example untagged_statsd_init :
  StatsD.__init__ (Some blank_app) (Some {["DATADOG_RESPONSE_AUTO_TAG" := PBool false]})
  = Ok untagged_statsd.
Proof. unfold StatsD.__init__. rewrite init_app_run. reflexivity. Qed.

Lemma after_request_without_auto_tag_witness :
  let s := mkGStore (Some 10%float) None (Some ["a:b"%string]) in
  let w := world_of s index_request 12 15 in
  let response := mkResponse 200 [("Content-Length", "512")]%string in
  let timing := timing_call (PStr "flask.response.time") (PFloat 5)
                  (PList ["a:b"%string]) (PInt 1) in
  (∃ rest,
     calls (snd (StatsD.after_request untagged_statsd response w))
     = calls w ++ timing :: rest)
  ∧ ctx (snd (StatsD.after_request untagged_statsd response w))
    = Some (mkContext s (Some index_request))
  ∧ (headers_contains (headers response) "content-length" = false →
     StatsD.after_request untagged_statsd response w
     = (Ok response, with_call w timing)).
Proof.
  intros s w response timing.
  apply (after_request_without_auto_tag untagged_statsd default_client
           untagged_config response w (mkContext s (Some index_request))
           10%float (AttrValue (PBool false)) (PBool false) (PInt 1)
           (PStr "flask.response.time") (PFloat 5));
    reflexivity.
Defined.

(** X10: [after_request] stores the status tag it adds, so running it a
    second time on the same request (as happens when the hooks were
    registered twice) sends a second timing metric whose tag list holds
    the status tag twice, whatever the response.  When the response has no
    content-length header the two timing metrics are all that is sent. *)
Theorem after_request_twice
    (self : StatsD.t) (d : DogStatsd) (c : gmap string PyVal)
    (response : Response) (w : World) (cx : Context) (t0 : float)
    (um : Attr) (auto rate name value : PyVal) :
  StatsD.config self = Some c →
  StatsD.statsd self = Some d →
  dog_attrs d !! "timing" = Some (AttrMember "timing") →
  dog_attrs d !! "use_ms" = Some um →
  c !! "DATADOG_RESPONSE_AUTO_TAG" = Some auto →
  truthy auto = true →
  c !! "DATADOG_RESPONSE_SAMPLE_RATE" = Some rate →
  c !! "DATADOG_RESPONSE_METRIC_NAME" = Some name →
  ctx w = Some cx →
  request_start_time (g cx) = Some t0 →
  let stored := default PNone (request_elapsed_time (g cx)) in
  let raw := if truthy stored then stored
             else PFloat (PrimFloat.sub (clock_time w) t0) in
  (if StatsD.attr_truthy um then milliseconds raw else Ok raw) = Ok value →
  let current := default [] (request_tags (g cx)) in
  let status_tag := "status_code:" +:+ pretty (status_code response) in
  let first := timing_call name value (PList (current ++ [status_tag])) rate in
  let second :=
    timing_call name value (PList (current ++ [status_tag; status_tag])) rate in
  let twice := snd (StatsD.after_request self response
                      (snd (StatsD.after_request self response w))) in
  (∃ rest1 rest2, calls twice = calls w ++ first :: rest1 ++ second :: rest2)
  ∧ (headers_contains (headers response) "content-length" = false →
     calls twice = calls w ++ [first; second]).
Proof.
  intros Hc Hd Ht Hu Ha Hon Hr Hn Hx Hs stored raw Hv current status_tag
         first second twice.
  subst twice.
  rewrite (after_request_run self d c Hc Hd Ht response w cx t0 um auto rate
             name value Hu Ha Hr Hn Hx Hs Hv).
  rewrite Hon. fold current status_tag first.
  set (s1 := set_request_tags (current ++ [status_tag]) (g cx)).
  set (w1 := with_call (with_g w cx s1) first).
  set (w2 := snd (after_request_size self response (current ++ [status_tag])
                    rate w1)).
  destruct (after_request_size_frame self d c Hc Hd response
              (current ++ [status_tag]) rate w1) as [rest1 Hw2].
  fold w2 in Hw2.
  assert (Hctx : ctx w2 = Some (mkContext s1 (request cx))) by (by rewrite Hw2).
  assert (Hclock : clock_time w2 = clock_time w) by (by rewrite Hw2).
  assert (Hrun : StatsD.after_request self response w2
                 = after_request_size self response
                     (current ++ [status_tag; status_tag]) rate
                     (with_call
                        (with_g w2 (mkContext s1 (request cx))
                           (set_request_tags
                              (current ++ [status_tag; status_tag]) s1))
                        second)).
  { rewrite (after_request_run self d c Hc Hd Ht response w2
               (mkContext s1 (request cx)) t0 um auto rate name value
               Hu Ha Hr Hn Hctx Hs).
    - rewrite Hon. subst s1.
      cbn [g set_request_tags request_tags default from_option id].
      fold status_tag. by rewrite <- !app_assoc.
    - by rewrite Hclock. }
  split.
  - rewrite Hrun.
    edestruct (after_request_size_calls self d c Hc Hd) as [rest2 Hrest2].
    exists rest1, rest2. rewrite Hrest2.
    cbn [calls with_call with_g]. rewrite Hw2. subst w1.
    cbn [calls with_call with_g].
    rewrite <- !app_assoc. reflexivity.
  - intros Hh. rewrite Hrun.
    rewrite (after_request_size_absent self response _ _ _ Hh).
    cbn [snd calls with_call with_g].
    subst w2. rewrite (after_request_size_absent self response _ _ _ Hh).
    subst w1. cbn [snd calls with_call with_g].
    rewrite <- !app_assoc. reflexivity.
Qed.

Lemma after_request_twice_witness :
  let s := mkGStore (Some 10%float) None (Some ["a:b"%string]) in
  let w := world_of s index_request 12 15 in
  let response := mkResponse 200 [("Content-Length", "512")]%string in
  let first := timing_call (PStr "flask.response.time") (PFloat 5)
                 (PList ["a:b"; "status_code:200"]%string) (PInt 1) in
  let second := timing_call (PStr "flask.response.time") (PFloat 5)
                  (PList ["a:b"; "status_code:200"; "status_code:200"]%string)
                  (PInt 1) in
  let twice := snd (StatsD.after_request default_statsd response
                      (snd (StatsD.after_request default_statsd response w))) in
  (∃ rest1 rest2, calls twice = calls w ++ first :: rest1 ++ second :: rest2)
  ∧ (headers_contains (headers response) "content-length" = false →
     calls twice = calls w ++ [first; second]).
Proof.
  intros s w response first second twice.
  apply (after_request_twice default_statsd default_client default_config
           response w (mkContext s (Some index_request)) 10%float
           (AttrValue (PBool false)) (PBool true) (PInt 1)
           (PStr "flask.response.time") (PFloat 5));
    reflexivity.
Defined.

(** A response with a content-length served twice: each pass sends its
    timing metric and its size metric. *)
Example after_request_twice_with_length :
  let s := mkGStore (Some 10%float) None (Some ["a:b"%string]) in
  let w := world_of s index_request 12 15 in
  let response := mkResponse 200 [("Content-Length", "512")]%string in
  let once := PList ["a:b"; "status_code:200"]%string in
  let again := PList ["a:b"; "status_code:200"; "status_code:200"]%string in
  calls (snd (StatsD.after_request default_statsd response
                (snd (StatsD.after_request default_statsd response w))))
  = [timing_call (PStr "flask.response.time") (PFloat 5) once (PInt 1);
     histogram_call (PStr "flask.response.size") (PInt 512) once (PInt 1);
     timing_call (PStr "flask.response.time") (PFloat 5) again (PInt 1);
     histogram_call (PStr "flask.response.size") (PInt 512) again (PInt 1)].
Proof. vm_compute. reflexivity. Qed.

(** ** More on [before_request] and on a whole request *)

(** X11: with DATADOG_RESPONSE_AUTO_TAG false, [before_request] records
    the monotonic clock as start time and replaces whatever tag list [g]
    held by the empty list; the stored elapsed value, the request, the
    clocks and the calls stay as they were. *)
Theorem before_request_without_auto_tag
    (self : StatsD.t) (c : gmap string PyVal) (w : World) (cx : Context)
    (auto : PyVal) :
  StatsD.config self = Some c →
  c !! "DATADOG_RESPONSE_AUTO_TAG" = Some auto →
  truthy auto = false →
  ctx w = Some cx →
  StatsD.before_request self w
  = (Ok (),
     with_g w cx (mkGStore (Some (clock_monotonic w))
                           (request_elapsed_time (g cx)) (Some []))).
Proof.
  intros Hc Ha Hoff Hx.
  unfold StatsD.before_request, time_monotonic.
  erewrite bind_Ok by reflexivity.
  rewrite (bind_Ok _ _ _ _ _ (g_write_in _ _ _ Hx)).
  erewrite bind_Ok by (by apply g_write_in).
  rewrite lift_bind, Hc, (getitem_Some _ _ _ Ha), Hoff.
  reflexivity.
Qed.

Lemma before_request_without_auto_tag_witness :
  let w := world_of (mkGStore (Some 1%float) (Some (PFloat 3))
                              (Some ["left:over"%string]))
                    index_request 10 100 in
  StatsD.before_request untagged_statsd w
  = (Ok (),
     world_of (mkGStore (Some 10%float) (Some (PFloat 3)) (Some []))
              index_request 10 100).
Proof.
  intros w.
  apply (before_request_without_auto_tag untagged_statsd untagged_config w
           (mkContext (mkGStore (Some 1%float) (Some (PFloat 3))
                                (Some ["left:over"%string])) (Some index_request))
           (PBool false));
    reflexivity.
Defined.

(** X12: one request through both hooks, with auto-tagging on, no elapsed
    value supplied from outside and the client's [use_ms] off.  Whatever
    start time and tags [g] held before, the timing metric carries the
    endpoint tag, the method tag, the tags the view added and the status
    tag, in this order, and its value is [time.time()] read by
    [after_request] minus [time.monotonic()] read by [before_request]. *)
Theorem request_through_hooks
    (self : StatsD.t) (d : DogStatsd) (c : gmap string PyVal)
    (w0 : World) (cx0 : Context) (r : Request) (adds : list (list string))
    (response : Response) (w : World)
    (um : Attr) (auto endpoint_name method_name rate name : PyVal)
    (en mn : string) :
  StatsD.config self = Some c →
  StatsD.statsd self = Some d →
  dog_attrs d !! "timing" = Some (AttrMember "timing") →
  dog_attrs d !! "use_ms" = Some um →
  StatsD.attr_truthy um = false →
  c !! "DATADOG_RESPONSE_AUTO_TAG" = Some auto →
  truthy auto = true →
  c !! "DATADOG_RESPONSE_ENDPOINT_TAG_NAME" = Some endpoint_name →
  c !! "DATADOG_RESPONSE_METHOD_TAG_NAME" = Some method_name →
  format endpoint_name = Ok en →
  format method_name = Ok mn →
  c !! "DATADOG_RESPONSE_SAMPLE_RATE" = Some rate →
  c !! "DATADOG_RESPONSE_METRIC_NAME" = Some name →
  ctx w0 = Some cx0 →
  request cx0 = Some r →
  request_elapsed_time (g cx0) = None →
  ctx w = ctx (snd (add_all self adds (snd (StatsD.before_request self w0)))) →
  let tags :=
    (en +:+ ":" +:+ lower (default "None"%string (endpoint r)))
    :: (mn +:+ ":" +:+ lower (method r))
    :: concat adds ++ ["status_code:" +:+ pretty (status_code response)] in
  ∃ rest,
    calls (snd (StatsD.after_request self response w))
    = calls w
      ++ timing_call name
           (PFloat (PrimFloat.sub (clock_time w) (clock_monotonic w0)))
           (PList tags) rate :: rest.
Proof.
  intros Hc Hd Ht Hu Hms Ha Hauto He Hm Hfe Hfm Hr Hn Hx0 Hreq Hnone Hw tags.
  rewrite (before_request_run self c Hc w0 cx0 r auto endpoint_name
             method_name en mn Ha Hauto He Hm Hfe Hfm Hx0 Hreq) in Hw.
  cbn [snd] in Hw.
  set (s1 := mkGStore _ _ _) in Hw.
  destruct (add_all_in self adds (with_g w0 cx0 s1)
              (mkContext s1 (request cx0)) eq_refl)
    as (s & Hrun & Htags & Hstart & Helapsed).
  rewrite Hrun in Hw. subst s1.
  cbn [snd with_g ctx g request] in Hw.
  cbn [g request_tags request_start_time request_elapsed_time
       default from_option id] in Htags, Hstart, Helapsed.
  rewrite Hnone in Helapsed.
  assert (Hvalue :
    (if StatsD.attr_truthy um
     then milliseconds
            (if truthy (default PNone (request_elapsed_time s))
             then default PNone (request_elapsed_time s)
             else PFloat (PrimFloat.sub (clock_time w) (clock_monotonic w0)))
     else Ok (if truthy (default PNone (request_elapsed_time s))
              then default PNone (request_elapsed_time s)
              else PFloat (PrimFloat.sub (clock_time w) (clock_monotonic w0))))
    = Ok (PFloat (PrimFloat.sub (clock_time w) (clock_monotonic w0))))
    by (by rewrite Hms, Helapsed).
  rewrite (after_request_run self d c Hc Hd Ht response w
             (mkContext s (request cx0)) (clock_monotonic w0) um auto rate
             name _ Hu Ha Hr Hn Hw Hstart Hvalue).
  rewrite Hauto. cbn [g]. rewrite Htags.
  edestruct (after_request_size_calls self d c Hc Hd) as [rest Hrest].
  exists rest. rewrite Hrest. cbn [calls with_call with_g].
  subst tags. rewrite <- !app_assoc. reflexivity.
Qed.

Lemma request_through_hooks_witness :
  let w0 := world_of (mkGStore (Some 1%float) None (Some ["left:over"%string]))
                     index_request 10 1000 in
  let adds := [["a:b"]; ["c:d"]]%string in
  let viewed := snd (add_all default_statsd adds
                       (snd (StatsD.before_request default_statsd w0))) in
  let w := mkWorld (ctx viewed) 12.5 1002.5 [] in
  ∃ rest,
    calls (snd (StatsD.after_request default_statsd (mkResponse 200 []) w))
    = calls w
      ++ timing_call (PStr "flask.response.time") (PFloat 992.5)
           (PList ["endpoint:index.view"; "method:get"; "a:b"; "c:d";
                   "status_code:200"]%string) (PInt 1) :: rest.
Proof.
  intros w0 adds viewed w.
  apply (request_through_hooks default_statsd default_client default_config
           w0 (mkContext (mkGStore (Some 1%float) None
                                   (Some ["left:over"%string]))
                         (Some index_request))
           index_request adds (mkResponse 200 []) w
           (AttrValue (PBool false)) (PBool true) (PStr "endpoint")
           (PStr "method") (PInt 1) (PStr "flask.response.time")
           "endpoint" "method");
    reflexivity.
Defined.

(** ** More on [init_app] *)

Lemma lookup_over_defaults (c D : gmap string PyVal) key :
  (c ∪ D) !! key = match c !! key with Some v => Some v | None => D !! key end.
Proof.
  rewrite lookup_union. destruct (c !! key), (D !! key); reflexivity.
Qed.

Lemma lookup_total_over_defaults (c D : gmap string PyVal) key dflt :
  D !! key = Some dflt →
  (c ∪ D) !!! key = default dflt (c !! key).
Proof.
  intros H. rewrite lookup_total_alt, lookup_over_defaults, H.
  by destruct (c !! key).
Qed.

(** X13: whenever [init_app] with a configuration dictionary returns, the
    client is enabled, and in the resulting configuration every entry of
    the given dictionary is kept as it is (also one whose value is None),
    every other key of [default_config] has its default, and no further
    key appears. *)
Theorem init_app_merges_defaults
    (self self' : StatsD.t) (app_ : App) (c : gmap string PyVal) :
  StatsD.init_app self app_ (Some c) = Ok self' →
  StatsD.is_enabled self' = true
  ∧ ∃ c',
      StatsD.config self' = Some c'
      ∧ ∀ key, c' !! key = match c !! key with
                           | Some v => Some v
                           | None => default_config !! key
                           end.
Proof.
  rewrite init_app_run. intros H. injection H as <-.
  cbn [StatsD.is_enabled StatsD.config chosen_config].
  split; [reflexivity|]. eexists. split; [reflexivity|].
  intros key. apply lookup_over_defaults.
Qed.

Lemma init_app_merges_defaults_witness :
  let c : gmap string PyVal :=
    {["STATSD_HOST" := PStr "stats.internal"; "STATSD_TAGS" := PNone]} in
  ∃ self',
    StatsD.init_app unconfigured_statsd blank_app (Some c) = Ok self'
    ∧ StatsD.is_enabled self' = true
    ∧ ∃ c',
        StatsD.config self' = Some c'
        ∧ ∀ key, c' !! key = match c !! key with
                             | Some v => Some v
                             | None => default_config !! key
                             end.
Proof.
  intros c.
  destruct (StatsD.init_app unconfigured_statsd blank_app (Some c))
    as [self'|e] eqn:H.
  - exists self'. split; [reflexivity|].
    exact (init_app_merges_defaults unconfigured_statsd self' blank_app c H).
  - rewrite init_app_run in H. discriminate H.
Defined.

(** X14: the dictionary [init_app] works on is its [config] argument when
    one is given; without one it is the dictionary given to the
    constructor; without that it is [app.config].  In each case the
    resulting configuration and client are those of passing that
    dictionary as the argument. *)
Theorem init_app_config_precedence
    (self : StatsD.t) (app_ : App) (c : gmap string PyVal) :
  (StatsD.config self = Some c →
   ∃ s1 s2,
     StatsD.init_app self app_ None = Ok s1
     ∧ StatsD.init_app self app_ (Some c) = Ok s2
     ∧ StatsD.config s1 = StatsD.config s2
     ∧ StatsD.statsd s1 = StatsD.statsd s2)
  ∧ (StatsD.config self = None →
     ∃ s1 s2,
       StatsD.init_app self app_ None = Ok s1
       ∧ StatsD.init_app self app_ (Some (app_config app_)) = Ok s2
       ∧ StatsD.config s1 = StatsD.config s2
       ∧ StatsD.statsd s1 = StatsD.statsd s2)
  ∧ (∀ other other_app,
       ∃ s1 s2,
         StatsD.init_app self app_ (Some c) = Ok s1
         ∧ StatsD.init_app other other_app (Some c) = Ok s2
         ∧ StatsD.config s1 = StatsD.config s2
         ∧ StatsD.statsd s1 = StatsD.statsd s2).
Proof.
  split; [|split].
  - intros H. eexists _, _. split; [apply init_app_run|].
    split; [apply init_app_run|].
    unfold chosen_config. rewrite H. by split.
  - intros H. eexists _, _. split; [apply init_app_run|].
    split; [apply init_app_run|].
    unfold chosen_config. rewrite H. by split.
  - intros other other_app. eexists _, _. split; [apply init_app_run|].
    split; [apply init_app_run|]. by split.
Qed.

Lemma init_app_config_precedence_witness :
  let c : gmap string PyVal := {["STATSD_PORT" := PInt 9125]} in
  let self := StatsD.mk (Some c) None false None in
  let app_ := mkApp {["STATSD_PORT" := PInt 1]} ∅ [] [] in
  ∃ s1 s2,
    StatsD.init_app self app_ None = Ok s1
    ∧ StatsD.init_app self app_ (Some c) = Ok s2
    ∧ StatsD.config s1 = StatsD.config s2
    ∧ StatsD.statsd s1 = StatsD.statsd s2.
Proof.
  intros c self app_.
  apply (proj1 (init_app_config_precedence self app_ c)). reflexivity.
Defined.

(** X15: the client [init_app] builds gets, for each of its seven
    settings, the value the given dictionary has under the matching
    STATSD_ key, and the default where the dictionary has none. *)
Theorem init_app_client_settings
    (self : StatsD.t) (app_ : App) (c : gmap string PyVal) :
  ∃ self',
    StatsD.init_app self app_ (Some c) = Ok self'
    ∧ StatsD.statsd self'
      = Some (DogStatsd_new
                (default (PStr "localhost") (c !! "STATSD_HOST"))
                (default (PInt 8125) (c !! "STATSD_PORT"))
                (default (PInt 50) (c !! "STATSD_MAX_BUFFER_SIZE"))
                (default PNone (c !! "STATSD_NAMESPACE"))
                (default PNone (c !! "STATSD_TAGS"))
                (default (PBool false) (c !! "STATSD_USEMS"))
                (default PNone (c !! "STATSD_SOCKET_PATH"))).
Proof.
  eexists. split; [apply init_app_run|].
  cbn [StatsD.statsd chosen_config]. unfold client_of.
  rewrite (lookup_total_over_defaults c default_config "STATSD_HOST"
             (PStr "localhost")) by reflexivity.
  rewrite (lookup_total_over_defaults c default_config "STATSD_PORT"
             (PInt 8125)) by reflexivity.
  rewrite (lookup_total_over_defaults c default_config "STATSD_MAX_BUFFER_SIZE"
             (PInt 50)) by reflexivity.
  rewrite (lookup_total_over_defaults c default_config "STATSD_NAMESPACE"
             PNone) by reflexivity.
  rewrite (lookup_total_over_defaults c default_config "STATSD_TAGS"
             PNone) by reflexivity.
  rewrite (lookup_total_over_defaults c default_config "STATSD_USEMS"
             (PBool false)) by reflexivity.
  rewrite (lookup_total_over_defaults c default_config "STATSD_SOCKET_PATH"
             PNone) by reflexivity.
  reflexivity.
Qed.

(** X16: whenever [init_app] with a configuration dictionary returns, the
    extension is registered under "statsd" next to the extensions the
    application already has, the hooks the application already has are
    kept, and the two hooks of the client are appended exactly when
    DATADOG_CONFIGURE_MIDDLEWARE, after defaulting to True, is true. *)
Theorem init_app_registration
    (self self' : StatsD.t) (app_ : App) (c : gmap string PyVal) :
  StatsD.init_app self app_ (Some c) = Ok self' →
  let wanted :=
    truthy (default (PBool true) (c !! "DATADOG_CONFIGURE_MIDDLEWARE")) in
  ∃ a,
    StatsD.app self' = Some a
    ∧ extensions a = {["statsd"%string]} ∪ extensions app_
    ∧ before_request_funcs a
      = before_request_funcs app_
        ++ (if wanted then ["StatsD.before_request"%string] else [])
    ∧ after_request_funcs a
      = after_request_funcs app_
        ++ (if wanted then ["StatsD.after_request"%string] else []).
Proof.
  rewrite init_app_run. intros H wanted. injection H as <-.
  eexists. cbn [StatsD.app chosen_config shares_app_config].
  split; [reflexivity|].
  rewrite (lookup_total_over_defaults c default_config
             "DATADOG_CONFIGURE_MIDDLEWARE" (PBool true)) by reflexivity.
  fold wanted. unfold registered.
  cbn [extensions before_request_funcs after_request_funcs].
  repeat split.
Qed.

Lemma init_app_registration_witness :
  let c : gmap string PyVal := {["DATADOG_CONFIGURE_MIDDLEWARE" := PInt 0]} in
  let app_ := mkApp ∅ {["sqlalchemy"%string]} ["login"%string] [] in
  ∃ self' a,
    StatsD.init_app unconfigured_statsd app_ (Some c) = Ok self'
    ∧ StatsD.app self' = Some a
    ∧ extensions a = {["statsd"%string]} ∪ {["sqlalchemy"%string]}
    ∧ before_request_funcs a = ["login"%string]
    ∧ after_request_funcs a = [].
Proof.
  intros c app_.
  destruct (StatsD.init_app unconfigured_statsd app_ (Some c))
    as [self'|e] eqn:H.
  - exists self'.
    destruct (init_app_registration unconfigured_statsd self' app_ c H)
      as (a & Ha & He & Hb & Hf).
    exists a. split; [reflexivity|]. split; [exact Ha|]. split; [exact He|].
    split; [exact Hb|exact Hf].
  - rewrite init_app_run in H. discriminate H.
Defined.

Lemma union_defaults_twice (c : gmap string PyVal) :
  (c ∪ default_config) ∪ default_config = c ∪ default_config.
Proof.
  rewrite <- (assoc_L (∪)). by f_equal.
Qed.

(** X17: calling [init_app] again on a configured client, with the
    application it holds and no new dictionary, leaves configuration and
    client as they are but registers the two hooks once more, when the
    middleware is wanted: the hooks then run twice on every request. *)
Theorem init_app_twice
    (self : StatsD.t) (app_ : App) (config_ : option (gmap string PyVal))
    (self1 : StatsD.t) (c1 : gmap string PyVal) (a1 : App) :
  StatsD.init_app self app_ config_ = Ok self1 →
  StatsD.config self1 = Some c1 →
  StatsD.app self1 = Some a1 →
  let again :=
    if truthy (c1 !!! "DATADOG_CONFIGURE_MIDDLEWARE") then
      (["StatsD.before_request"], ["StatsD.after_request"])%string
    else ([], []) in
  ∃ self2 a2,
    StatsD.init_app self1 a1 None = Ok self2
    ∧ StatsD.config self2 = StatsD.config self1
    ∧ StatsD.statsd self2 = StatsD.statsd self1
    ∧ StatsD.app self2 = Some a2
    ∧ before_request_funcs a2
      = (before_request_funcs app_ ++ fst again) ++ fst again
    ∧ after_request_funcs a2
      = (after_request_funcs app_ ++ snd again) ++ snd again.
Proof.
  rewrite init_app_run. intros H Hc Ha again.
  injection H as <-. cbn [StatsD.config StatsD.app] in Hc, Ha.
  injection Hc as <-. injection Ha as <-.
  eexists _, _. split; [apply init_app_run|].
  cbn [StatsD.config StatsD.statsd StatsD.app chosen_config default
       from_option id].
  rewrite union_defaults_twice.
  split; [reflexivity|]. split; [reflexivity|]. split; [reflexivity|].
  subst again. unfold registered.
  cbn [before_request_funcs after_request_funcs].
  by destruct (truthy _).
Qed.

Lemma init_app_twice_witness :
  ∃ self2 a2,
    StatsD.init_app default_statsd (registered blank_app ∅ true) None = Ok self2
    ∧ StatsD.config self2 = StatsD.config default_statsd
    ∧ StatsD.statsd self2 = StatsD.statsd default_statsd
    ∧ StatsD.app self2 = Some a2
    ∧ before_request_funcs a2
      = ["StatsD.before_request"; "StatsD.before_request"]%string
    ∧ after_request_funcs a2
      = ["StatsD.after_request"; "StatsD.after_request"]%string.
Proof.
  apply (init_app_twice unconfigured_statsd blank_app (Some ∅) default_statsd
           default_config (registered blank_app ∅ true));
    [|reflexivity|reflexivity].
  rewrite init_app_run. reflexivity.
Defined.

(** X18: with no dictionary given to [init_app] or to the constructor, the
    client works on [app.config] itself: the application's configuration
    afterwards is the client's configuration, with every entry it had
    before kept and the defaults added. *)
Theorem init_app_writes_app_config (self : StatsD.t) (app_ : App) :
  StatsD.config self = None →
  ∃ self' a c',
    StatsD.init_app self app_ None = Ok self'
    ∧ StatsD.config self' = Some c'
    ∧ StatsD.app self' = Some a
    ∧ app_config a = c'
    ∧ (∀ key v, app_config app_ !! key = Some v → c' !! key = Some v)
    ∧ (∀ key v, default_config !! key = Some v → is_Some (c' !! key)).
Proof.
  intros H. eexists _, _, _. split; [apply init_app_run|].
  unfold chosen_config, shares_app_config. rewrite H.
  cbn [StatsD.config StatsD.app default from_option id registered app_config].
  repeat split.
  - intros key v Hk. by apply lookup_union_Some_l.
  - intros key v Hk. by eapply default_config_lookup.
Qed.

Lemma init_app_writes_app_config_witness :
  let app_ := mkApp {["STATSD_PORT" := PInt 9125]} ∅ [] [] in
  ∃ self' a c',
    StatsD.init_app unconfigured_statsd app_ None = Ok self'
    ∧ StatsD.config self' = Some c'
    ∧ StatsD.app self' = Some a
    ∧ app_config a = c'
    ∧ (∀ key v, app_config app_ !! key = Some v → c' !! key = Some v)
    ∧ (∀ key v, default_config !! key = Some v → is_Some (c' !! key)).
Proof.
  intros app_.
  apply (init_app_writes_app_config unconfigured_statsd app_).
  reflexivity.
Defined.

(** ** class API: configuration *)

Lemma api_init_app_run self app_ config_ :
  let c := api_chosen_config self app_ config_ ∪ api_defaults in
  let shared := match config_, API.config self with
                | None, None => true
                | _, _ => false
                end in
  API.init_app self app_ config_
  = Ok (API.mk (Some c)
          (Some (mkApp (if shared then c else app_config app_) (extensions app_)
                       (before_request_funcs app_) (after_request_funcs app_))),
        mkCall "initialize" []
          (<["api_key" := c !!! "DATADOG_API_KEY"]>
             (<["app_key" := c !!! "DATADOG_APP_KEY"]> ∅))).
Proof.
  intros c shared. unfold API.init_app.
  assert (∃ c0, (match config_ with
      | Some c => (c, false)
      | None =>
          match API.config self with
          | Some c => (c, false)
          | None => (app_config app_, true)
          end
      end) = (c0, shared) ∧ c0 = api_chosen_config self app_ config_)
    as (c0 & -> & ->).
  { unfold api_chosen_config. subst shared.
    destruct config_; [by eauto|]. destruct (API.config self); by eauto. }
  rewrite !setdefault_union, <- (assoc_L (∪)).
  change ({["DATADOG_API_KEY" := PNone]} ∪ {["DATADOG_APP_KEY" := PNone]})
    with api_defaults.
  fold c.
  rewrite (getitem_total c "DATADOG_API_KEY").
  2: { subst c. rewrite lookup_over_defaults. by destruct (_ !! _). }
  rewrite (getitem_total c "DATADOG_APP_KEY").
  2: { subst c. rewrite lookup_over_defaults. by destruct (_ !! _). }
  reflexivity.
Qed.

(** X19: whenever [API.init_app] with a configuration dictionary returns,
    it has called [initialize] once, with the keyword arguments [api_key]
    and [app_key] only, each being the dictionary's entry under
    DATADOG_API_KEY / DATADOG_APP_KEY or None where there is none; the
    resulting configuration keeps every given entry and adds the two keys
    where missing; and the extensions and hooks of the application are
    what they were. *)
Theorem api_init_app_keys
    (self self' : API.t) (app_ : App) (c : gmap string PyVal) (call : Call) :
  API.init_app self app_ (Some c) = Ok (self', call) →
  call = mkCall "initialize" []
           (<["api_key" := default PNone (c !! "DATADOG_API_KEY")]>
              (<["app_key" := default PNone (c !! "DATADOG_APP_KEY")]> ∅))
  ∧ (∃ c',
       API.config self' = Some c'
       ∧ ∀ key, c' !! key = match c !! key with
                            | Some v => Some v
                            | None => api_defaults !! key
                            end)
  ∧ ∃ a,
      API.app self' = Some a
      ∧ extensions a = extensions app_
      ∧ before_request_funcs a = before_request_funcs app_
      ∧ after_request_funcs a = after_request_funcs app_.
Proof.
  rewrite api_init_app_run. intros H. injection H as <- <-.
  cbn [api_chosen_config API.config API.app].
  rewrite (lookup_total_over_defaults c api_defaults "DATADOG_API_KEY" PNone)
    by reflexivity.
  rewrite (lookup_total_over_defaults c api_defaults "DATADOG_APP_KEY" PNone)
    by reflexivity.
  split; [reflexivity|]. split.
  - eexists. split; [reflexivity|]. intros key. apply lookup_over_defaults.
  - eexists. repeat split.
Qed.

Lemma api_init_app_keys_witness :
  let c : gmap string PyVal := {["DATADOG_API_KEY" := PStr "0123abcd"]} in
  ∃ self' call,
    API.init_app (API.mk None None) blank_app (Some c) = Ok (self', call)
    ∧ call = mkCall "initialize" []
               (<["api_key" := PStr "0123abcd"]> (<["app_key" := PNone]> ∅))
    ∧ API.config self'
      = Some {["DATADOG_API_KEY" := PStr "0123abcd"; "DATADOG_APP_KEY" := PNone]}.
Proof.
  intros c.
  destruct (API.init_app (API.mk None None) blank_app (Some c))
    as [[self' call]|e] eqn:H.
  - exists self', call. split; [reflexivity|].
    destruct (api_init_app_keys (API.mk None None) self' blank_app c call H)
      as (Hcall & _ & _).
    split; [exact Hcall|].
    rewrite api_init_app_run in H. injection H as <- _. reflexivity.
  - rewrite api_init_app_run in H. discriminate H.
Defined.

(** X20: [StatsD] and [API] can be configured from one dictionary in
    either order: the dictionary ends up the same, and so do the statsd
    client built and the call of [initialize]. *)
Theorem init_app_either_order
    (self : StatsD.t) (api : API.t) (app_ : App) (c : gmap string PyVal) :
  ∃ s1 a1 call1 a2 call2 s2,
    (* StatsD first, then API on the dictionary StatsD has filled *)
    StatsD.init_app self app_ (Some c) = Ok s1
    ∧ API.init_app api app_ (StatsD.config s1) = Ok (a1, call1)
    (* API first, then StatsD on the dictionary API has filled *)
    ∧ API.init_app api app_ (Some c) = Ok (a2, call2)
    ∧ StatsD.init_app self app_ (API.config a2) = Ok s2
    ∧ API.config a1 = StatsD.config s2
    ∧ StatsD.statsd s1 = StatsD.statsd s2
    ∧ call1 = call2.
Proof.
  assert (Hcomm : default_config ∪ api_defaults = api_defaults ∪ default_config)
    by reflexivity.
  assert (Hc : (c ∪ default_config) ∪ api_defaults
               = (c ∪ api_defaults) ∪ default_config).
  { by rewrite <- !(assoc_L (∪)), Hcomm. }
  eexists _, _, _, _, _, _.
  split; [apply init_app_run|]. cbn [StatsD.config chosen_config].
  split; [apply api_init_app_run|]. cbn [api_chosen_config].
  split; [apply api_init_app_run|]. cbn [API.config api_chosen_config].
  split; [apply init_app_run|].
  cbn [StatsD.config StatsD.statsd API.config chosen_config].
  split; [by rewrite Hc|]. split.
  - f_equal. unfold client_of.
    rewrite <- Hc.
    by rewrite !(lookup_total_alt ((c ∪ default_config) ∪ api_defaults)),
       !(lookup_total_alt (c ∪ default_config)),
       !(lookup_over_defaults (c ∪ default_config) api_defaults),
       !(lookup_over_defaults c default_config);
      repeat (destruct (c !! _)); reflexivity.
  - f_equal.
    rewrite !(lookup_total_alt ((c ∪ default_config) ∪ api_defaults)),
       !(lookup_total_alt (c ∪ api_defaults)),
       !(lookup_over_defaults (c ∪ default_config) api_defaults),
       !(lookup_over_defaults c default_config),
       !(lookup_over_defaults c api_defaults).
    by repeat (destruct (c !! _)).
Qed.

(** ** Counters, gauges and timers on a configured client *)

Lemma setdefault_tags_missing self (kwargs : gmap string PyVal) w :
  is_None (default PNone (kwargs !! "tags")) = true →
  ∃ l, StatsD.get_request_tags self w = (Ok l, w)
       ∧ StatsD._setdefault_tags self kwargs w
         = (Ok (<["tags" := PList l]> kwargs), w).
Proof.
  intros H. destruct (get_request_tags_total self w) as [l Hl].
  exists l. split; [done|].
  unfold StatsD._setdefault_tags. rewrite H.
  by rewrite (bind_Ok _ _ _ _ _ Hl).
Qed.

Lemma setdefault_tags_given self (kwargs : gmap string PyVal) w :
  is_None (default PNone (kwargs !! "tags")) = false →
  StatsD._setdefault_tags self kwargs w = (Ok kwargs, w).
Proof. intros H. unfold StatsD._setdefault_tags. by rewrite H. Qed.

Lemma record_call_run m params args kwargs w :
  method_parameters m = Some params →
  record_call m args kwargs w
  = (if binds params args kwargs
     then (Ok PNone, with_call w (mkCall m args kwargs))
     else (Raise TypeError, w)).
Proof.
  intros H. unfold record_call. rewrite H. by destruct (binds _ _ _).
Qed.

(** An argument given both by position and by keyword does not bind. *)
Lemma binds_from_collision params : ∀ i j name optional args kwargs,
  params !! j = Some (name, optional) →
  is_Some (args !! (i + j)%nat) →
  is_Some (kwargs !! name) →
  binds_from i params args kwargs = false.
Proof.
  induction params as [|[name' optional'] rest IH];
    intros i j name optional args kwargs Hp [a Ha] [v Hv]; [done|].
  cbn [binds_from]. destruct j as [|j].
  - cbn in Hp. injection Hp as -> ->.
    rewrite Nat.add_0_r in Ha. by rewrite Ha, Hv.
  - apply andb_false_intro2.
    apply (IH (S i) j name optional); [done| |by eexists].
    exists a. by rewrite <- Ha, Nat.add_succ_r.
Qed.

Lemma binds_positional_tags params args kwargs :
  params !! 2%nat = Some ("tags"%string, true) →
  (2 < length args)%nat →
  is_Some (kwargs !! "tags") →
  binds params args kwargs = false.
Proof.
  intros Hp Hlen Hk. unfold binds. apply andb_false_intro2.
  apply (binds_from_collision params 0 2 "tags" true); [done| |done].
  by apply lookup_lt_is_Some.
Qed.

(** X21: on a configured client, [incr], [decr] and [gauge] call
    [increment], [decrement] and [gauge] on the wrapped client with the
    positional arguments as given and with the keyword arguments as
    given, except that [tags] is set to the list [get_request_tags]
    returns at that moment (the empty list outside a context) when the
    caller gave no [tags] keyword or gave None.  When these arguments fit
    the parameters of the method, exactly one call is made and None
    returned; when they do not, [TypeError] is raised and nothing is
    sent.  Since the [tags] keyword is always there, tags given by
    position (a third positional argument) never fit. *)
Theorem forward_enabled
    (self : StatsD.t) (d : DogStatsd)
    (args : list PyVal) (kwargs : gmap string PyVal) (w : World) :
  StatsD.is_enabled self = true →
  StatsD.statsd self = Some d →
  dog_attrs d !! "increment" = Some (AttrMember "increment") →
  dog_attrs d !! "decrement" = Some (AttrMember "decrement") →
  dog_attrs d !! "gauge" = Some (AttrMember "gauge") →
  ∃ l kwargs',
    StatsD.get_request_tags self w = (Ok l, w)
    ∧ kwargs' = (if is_None (default PNone (kwargs !! "tags"))
                 then <["tags" := PList l]> kwargs else kwargs)
    ∧ StatsD.incr self args kwargs w
      = (if binds counter_parameters args kwargs'
         then (Ok PNone, with_call w (mkCall "increment" args kwargs'))
         else (Raise TypeError, w))
    ∧ StatsD.decr self args kwargs w
      = (if binds counter_parameters args kwargs'
         then (Ok PNone, with_call w (mkCall "decrement" args kwargs'))
         else (Raise TypeError, w))
    ∧ StatsD.gauge self args kwargs w
      = (if binds value_parameters args kwargs'
         then (Ok PNone, with_call w (mkCall "gauge" args kwargs'))
         else (Raise TypeError, w))
    ∧ ((2 < length args)%nat →
       binds counter_parameters args kwargs' = false
       ∧ binds value_parameters args kwargs' = false).
Proof.
  intros He Hd Hi Hdec Hg.
  destruct (get_request_tags_total self w) as [l Hl].
  exists l. eexists. split; [exact Hl|]. split; [reflexivity|].
  set (kwargs' := if is_None (default PNone (kwargs !! "tags"))
                  then <["tags" := PList l]> kwargs else kwargs).
  assert (Hk : StatsD._setdefault_tags self kwargs w = (Ok kwargs', w)).
  { subst kwargs'. destruct (is_None _) eqn:Hn.
    - destruct (setdefault_tags_missing self kwargs w Hn) as (l' & Hl' & Hs).
      rewrite Hl in Hl'. by simplify_eq.
    - by apply setdefault_tags_given. }
  assert (Htags : is_Some (kwargs' !! "tags")).
  { subst kwargs'. destruct (is_None _) eqn:Hn.
    - rewrite lookup_insert_eq. by eexists.
    - destruct (kwargs !! "tags") as [v|]; [by eexists|discriminate Hn]. }
  unfold StatsD.incr, StatsD.decr, StatsD.gauge. rewrite He, Hd.
  rewrite !(bind_Ok _ _ _ _ _ Hk).
  rewrite (bind_Ok _ _ _ _ _ (lookup_method_member _ _ _ _ Hi)).
  rewrite (bind_Ok _ _ _ _ _ (lookup_method_member _ _ _ _ Hdec)).
  rewrite (bind_Ok _ _ _ _ _ (lookup_method_member _ _ _ _ Hg)).
  split; [by apply record_call_run|].
  split; [by apply record_call_run|].
  split; [by apply record_call_run|].
  intros Hlen. split; by apply binds_positional_tags.
Qed.

Lemma forward_enabled_witness :
  let w := world_of (mkGStore (Some 1%float) None (Some ["a:b"%string]))
                    index_request 2 2 in
  let args := [PStr "page.views"; PInt 3] in
  let kwargs : gmap string PyVal := {["sample_rate" := PFloat 0.5]} in
  ∃ l kwargs',
    StatsD.get_request_tags default_statsd w = (Ok l, w)
    ∧ kwargs' = (if is_None (default PNone (kwargs !! "tags"))
                 then <["tags" := PList l]> kwargs else kwargs)
    ∧ StatsD.incr default_statsd args kwargs w
      = (if binds counter_parameters args kwargs'
         then (Ok PNone, with_call w (mkCall "increment" args kwargs'))
         else (Raise TypeError, w))
    ∧ StatsD.decr default_statsd args kwargs w
      = (if binds counter_parameters args kwargs'
         then (Ok PNone, with_call w (mkCall "decrement" args kwargs'))
         else (Raise TypeError, w))
    ∧ StatsD.gauge default_statsd args kwargs w
      = (if binds value_parameters args kwargs'
         then (Ok PNone, with_call w (mkCall "gauge" args kwargs'))
         else (Raise TypeError, w))
    ∧ ((2 < length args)%nat →
       binds counter_parameters args kwargs' = false
       ∧ binds value_parameters args kwargs' = false).
Proof.
  intros w args kwargs.
  apply (forward_enabled default_statsd default_client); reflexivity.
Defined.

(** A gauge with its value is sent with the request tags; a gauge without
    a value, and a counter with tags given by position, raise [TypeError]
    and send nothing. *)
Example gauge_with_value :
  let w := world_of (mkGStore (Some 1%float) None (Some ["a:b"%string]))
                    index_request 2 2 in
  StatsD.gauge default_statsd [PStr "queue.size"; PInt 3] ∅ w
  = (Ok PNone,
     with_call w (mkCall "gauge" [PStr "queue.size"; PInt 3]
                    {["tags" := PList ["a:b"%string]]})).
Proof. vm_compute. reflexivity. Qed.

Example gauge_without_value :
  let w := world_of (mkGStore (Some 1%float) None (Some ["a:b"%string]))
                    index_request 2 2 in
  StatsD.gauge default_statsd [PStr "queue.size"]
    {["sample_rate" := PFloat 0.5]} w
  = (Raise TypeError, w).
Proof. vm_compute. reflexivity. Qed.

Example incr_positional_tags :
  let w := world_of (mkGStore (Some 1%float) None (Some ["a:b"%string]))
                    index_request 2 2 in
  StatsD.incr default_statsd [PStr "page.views"; PInt 1; PList ["x:y"%string]] ∅ w
  = (Raise TypeError, w).
Proof. vm_compute. reflexivity. Qed.

(** X22: on a configured client, [timer] called with tags given by
    position (a second positional argument) and no [tags] keyword raises
    [TypeError]: the request tags it fills in as keyword collide with the
    positional ones.  The world is left as it was. *)
Theorem timer_positional_tags_collide
    (self : StatsD.t) (args : list PyVal) (kwargs : gmap string PyVal)
    (v : PyVal) (w : World) :
  StatsD.is_enabled self = true →
  args !! 1%nat = Some v →
  is_None (default PNone (kwargs !! "tags")) = true →
  StatsD.timer self args kwargs w = (Raise TypeError, w).
Proof.
  intros He Ha Hn. unfold StatsD.timer. rewrite He.
  destruct (setdefault_tags_missing self kwargs w Hn) as (l & _ & Hs).
  rewrite (bind_Ok _ _ _ _ _ Hs). unfold lift. f_equal.
  unfold TimerWrapper.__init__.
  case_decide; [done|]. case_decide; [|done].
  assert (Htags : TimerWrapper.bind_parameter args
                    (<["tags" := PList l]> kwargs) 1 "tags" PNone
                  = Raise TypeError).
  { unfold TimerWrapper.bind_parameter. by rewrite Ha, lookup_insert_eq. }
  assert (Hmetric : ∀ x, TimerWrapper.bind_parameter args
                    (<["tags" := PList l]> kwargs) 0 "metric" PNone = x →
                    (∃ m, x = Ok m) ∨ x = Raise TypeError).
  { intros x <-. unfold TimerWrapper.bind_parameter.
    destruct (args !! 0%nat), (_ !! "metric"); eauto. }
  destruct (Hmetric _ eq_refl) as [[m ->]| ->]; [|done].
  cbn [mbind Result_bind]. by rewrite Htags.
Qed.

Lemma timer_positional_tags_collide_witness :
  let w := world_of empty_g index_request 2 2 in
  StatsD.timer default_statsd [PStr "db.query"; PList ["x:y"%string]] ∅ w
  = (Raise TypeError, w).
Proof.
  intros w.
  apply (timer_positional_tags_collide default_statsd
           [PStr "db.query"; PList ["x:y"%string]] ∅ (PList ["x:y"%string]) w);
    reflexivity.
Defined.

(** X23: a timer that holds no client (made before [init_app]) still
    measures: leaving it makes no call and changes nothing in the world,
    and its [elapsed] attribute then holds the time since entry on the
    monotonic clock, as [int(round(1000 * _))] unless [use_ms] is set and
    false. *)
Theorem timer_without_client
    (tw : TimerWrapper.t) (s : float) (w : World) (value : PyVal) :
  TimerWrapper.statsd tw = None →
  TimerWrapper._start tw = Some s →
  let dt := PFloat (PrimFloat.sub (clock_monotonic w) s) in
  (if truthy (if is_None (TimerWrapper.use_ms tw) then PBool true
              else TimerWrapper.use_ms tw)
   then milliseconds dt else Ok dt) = Ok value →
  ∃ tw',
    TimerWrapper.__exit__ tw w = (Ok tw', w)
    ∧ TimerWrapper.elapsed tw' = value
    ∧ TimerWrapper.metric tw' = TimerWrapper.metric tw
    ∧ TimerWrapper.tags tw' = TimerWrapper.tags tw.
Proof.
  intros Hd Hs dt Hv. unfold TimerWrapper.__exit__. rewrite Hs.
  unfold TimerWrapper._send.
  unfold time_monotonic at 1. erewrite bind_Ok by reflexivity.
  fold dt.
  assert (He : (if truthy (if is_None (TimerWrapper.use_ms tw) then PBool true
                           else TimerWrapper.use_ms tw)
                then lift (milliseconds dt) else ret dt) w = (Ok value, w)).
  { destruct (truthy _); unfold lift, ret; by rewrite ?Hv; simplify_eq. }
  rewrite (bind_Ok _ _ _ _ _ He). rewrite Hd.
  eexists. split; [reflexivity|]. repeat split.
Qed.

Lemma timer_without_client_witness :
  let tw := TimerWrapper.mk None (PStr "db.query") PNone (PInt 1) PNone PNone
                            (Some 10%float) in
  let w := world_of empty_g index_request 10.0625 11 in
  ∃ tw',
    TimerWrapper.__exit__ tw w = (Ok tw', w)
    ∧ TimerWrapper.elapsed tw' = PInt 62
    ∧ TimerWrapper.metric tw' = PStr "db.query"
    ∧ TimerWrapper.tags tw' = PNone.
Proof.
  intros tw w.
  apply (timer_without_client tw 10%float w (PInt 62)); reflexivity.
Defined.

(** ** From configuration to the metrics sent *)

(** X24: for a client configured by [init_app] from any dictionary, the
    settings reach [after_request]: with a start time recorded, the timing
    metric is sent under the name given by DATADOG_RESPONSE_METRIC_NAME
    (default "flask.response.time"), with the sample rate given by
    DATADOG_RESPONSE_SAMPLE_RATE (default 1), and its value is converted
    to milliseconds exactly when STATSD_USEMS (default False) is true.  No
    missing key or missing client attribute stops it. *)
Theorem configured_after_request
    (self : StatsD.t) (app_ : App) (c : gmap string PyVal) :
  ∃ self',
    StatsD.init_app self app_ (Some c) = Ok self'
    ∧ ∀ response w cx t0 value,
        ctx w = Some cx →
        request_start_time (g cx) = Some t0 →
        let stored := default PNone (request_elapsed_time (g cx)) in
        let raw := if truthy stored then stored
                   else PFloat (PrimFloat.sub (clock_time w) t0) in
        (if truthy (default (PBool false) (c !! "STATSD_USEMS"))
         then milliseconds raw else Ok raw) = Ok value →
        ∃ tags rest,
          calls (snd (StatsD.after_request self' response w))
          = calls w
            ++ timing_call
                 (default (PStr "flask.response.time")
                          (c !! "DATADOG_RESPONSE_METRIC_NAME"))
                 value (PList tags)
                 (default (PInt 1) (c !! "DATADOG_RESPONSE_SAMPLE_RATE"))
               :: rest.
Proof.
  eexists. split; [apply init_app_run|].
  cbn [chosen_config].
  intros response w cx t0 value Hx Hs Hv.
  set (c' := c ∪ default_config).
  set (self' := StatsD.mk _ _ _ _).
  assert (Hlook : ∀ key dflt, default_config !! key = Some dflt →
                    c' !! key = Some (default dflt (c !! key))).
  { intros key dflt H. subst c'. rewrite lookup_over_defaults, H.
    by destruct (c !! key). }
  assert (Hum : dog_attrs (client_of c') !! "use_ms"
                = Some (AttrValue (default (PBool false) (c !! "STATSD_USEMS")))).
  { unfold client_of, c'.
    rewrite (lookup_total_over_defaults c default_config "STATSD_USEMS"
               (PBool false)) by reflexivity.
    reflexivity. }
  assert (Hauto : c' !! "DATADOG_RESPONSE_AUTO_TAG"
                  = Some (default (PBool true) (c !! "DATADOG_RESPONSE_AUTO_TAG")))
    by (by apply Hlook).
  assert (Hrate : c' !! "DATADOG_RESPONSE_SAMPLE_RATE"
                  = Some (default (PInt 1) (c !! "DATADOG_RESPONSE_SAMPLE_RATE")))
    by (by apply Hlook).
  assert (Hname : c' !! "DATADOG_RESPONSE_METRIC_NAME"
                  = Some (default (PStr "flask.response.time")
                                  (c !! "DATADOG_RESPONSE_METRIC_NAME")))
    by (by apply Hlook).
  assert (Htiming : dog_attrs (client_of c') !! "timing"
                    = Some (AttrMember "timing")) by reflexivity.
  rewrite (after_request_run self' (client_of c') c' eq_refl eq_refl Htiming
             response w cx t0 _ _ _ _ value Hum Hauto Hrate Hname Hx Hs Hv).
  eexists.
  edestruct (after_request_size_calls self' (client_of c') c' eq_refl eq_refl)
    as [rest Hrest].
  exists rest. rewrite Hrest. cbn [calls with_call with_g].
  by rewrite <- app_assoc.
Qed.

(** X25: a client configured by [init_app] from a dictionary that says
    nothing about auto-tagging and tag names tags every request: inside a
    request [before_request] succeeds, records the monotonic clock as
    start time and sets the tag list to "endpoint:" and "method:" followed
    by the lower-cased endpoint ("none" when the request has none) and
    method. *)
Theorem configured_before_request
    (self : StatsD.t) (app_ : App) (c : gmap string PyVal)
    (w : World) (cx : Context) (r : Request) :
  c !! "DATADOG_RESPONSE_AUTO_TAG" = None →
  c !! "DATADOG_RESPONSE_ENDPOINT_TAG_NAME" = None →
  c !! "DATADOG_RESPONSE_METHOD_TAG_NAME" = None →
  ctx w = Some cx →
  request cx = Some r →
  ∃ self',
    StatsD.init_app self app_ (Some c) = Ok self'
    ∧ StatsD.before_request self' w
      = (Ok (),
         with_g w cx
           (mkGStore (Some (clock_monotonic w)) (request_elapsed_time (g cx))
              (Some ["endpoint:" +:+ lower (default "None" (endpoint r));
                     "method:" +:+ lower (method r)]%string))).
Proof.
  intros Ha He Hm Hx Hreq.
  eexists. split; [apply init_app_run|].
  cbn [chosen_config].
  set (self' := StatsD.mk _ _ _ _).
  assert (Hlook : ∀ key dflt, c !! key = None →
                    default_config !! key = Some dflt →
                    (c ∪ default_config) !! key = Some dflt).
  { intros key dflt Hn H. by rewrite lookup_over_defaults, Hn. }
  apply (before_request_run self' (c ∪ default_config) eq_refl w cx r
           (PBool true) (PStr "endpoint") (PStr "method") "endpoint" "method");
    try reflexivity; try done.
  - by apply Hlook.
  - by apply Hlook.
  - by apply Hlook.
Qed.

Lemma configured_before_request_witness :
  let w := world_of empty_g (mkRequest None "POST") 10 100 in
  ∃ self',
    StatsD.init_app unconfigured_statsd blank_app
      (Some {["STATSD_HOST" := PStr "stats.internal"]}) = Ok self'
    ∧ StatsD.before_request self' w
      = (Ok (),
         world_of (mkGStore (Some 10%float) None
                     (Some ["endpoint:none"; "method:post"]%string))
                  (mkRequest None "POST") 10 100).
Proof.
  intros w.
  apply (configured_before_request unconfigured_statsd blank_app
           {["STATSD_HOST" := PStr "stats.internal"]} w
           (mkContext empty_g (Some (mkRequest None "POST")))
           (mkRequest None "POST"));
    reflexivity.
Defined.

Lemma configured_after_request_witness :
  let w := world_of (mkGStore (Some 10%float) (Some (PFloat 0.25)) (Some []))
                    index_request 12 15 in
  ∃ self',
    StatsD.init_app unconfigured_statsd blank_app
      (Some {["STATSD_USEMS" := PBool true;
              "DATADOG_RESPONSE_METRIC_NAME" := PStr "web.time"]}) = Ok self'
    ∧ ∃ tags rest,
        calls (snd (StatsD.after_request self' (mkResponse 200 []) w))
        = calls w ++ timing_call (PStr "web.time") (PInt 250) (PList tags)
                                 (PInt 1) :: rest.
Proof.
  intros w.
  destruct (configured_after_request unconfigured_statsd blank_app
              {["STATSD_USEMS" := PBool true;
                "DATADOG_RESPONSE_METRIC_NAME" := PStr "web.time"]})
    as (self' & Hinit & Hrun).
  exists self'. split; [exact Hinit|].
  apply (Hrun (mkResponse 200 []) w
           (mkContext (mkGStore (Some 10%float) (Some (PFloat 0.25)) (Some []))
                      (Some index_request)) 10%float (PInt 250));
    reflexivity.
Defined.
